(** * line_sampler: the line store, the wire protocol and the session loop

    A shallow embedding of [server/cache_manager.py], [server/protocol.py]
    and [server/server.py], and the properties of the specification that
    are about them.

    Conventions of the embedding.
    - A Python [int] is a [Z]; [len(x)] is [Z.of_nat (length x)].
    - A Python [str] is the list of its Unicode code points ([pystr]);
      [bytes] is [list byte].
    - An operation that can raise returns a [result]: [Ok v] or [Err e]
      with [e] the exception (its class and its [str(e)]).
    - Methods of [ThreadSafeCache] run under [self.lock]; they are embedded
      as atomic state transformers [cache -> value * cache]. *)

From Stdlib Require Import ZArith Lia Ascii String.
From Stdlib.Strings Require Import Byte.
From stdpp Require Import base option list numbers gmap.

Local Open Scope Z_scope.

(* ================================================================== *)
(** * Python values *)

(** A [str]: the sequence of its code points. *)
Definition pystr : Type := list Z.

(** The code points of an ASCII literal. *)
Definition py (s : string) : pystr :=
  map (fun a => Z.of_N (N_of_ascii a)) (list_ascii_of_string s).

(** [len(x)] *)
Definition len {A} (l : list A) : Z := Z.of_nat (length l).

(** ** Exceptions and results *)

(** The exception classes the server can meet. All derive from
    [Exception]; [is_ValueError] is [isinstance(e, ValueError)]. *)
Inductive exn_class : Type :=
| ValueError | JSONDecodeError | UnicodeDecodeError | UnicodeEncodeError
| TypeError | AttributeError | OSError | OverflowError.

Definition is_ValueError (cls : exn_class) : bool :=
  match cls with
  | ValueError | JSONDecodeError | UnicodeDecodeError | UnicodeEncodeError
      => true
  | TypeError | AttributeError | OSError | OverflowError => false
  end.

(** An exception: its class and [str(e)]. *)
Record exn : Type := mkExn { exn_cls : exn_class; exn_str : pystr }.

Inductive result (A : Type) : Type :=
| Ok (a : A)
| Err (e : exn).
Arguments Ok {A} a.
Arguments Err {A} e.

Definition raise {A} (cls : exn_class) (msg : pystr) : result A :=
  Err (mkExn cls msg).

Notation "'let*' x ':=' m 'in' k" :=
  (match m with Ok x => k | Err e => Err e end)
  (at level 10, x name, m at level 100, k at level 200, only parsing).
Notation "'let*' ' p ':=' m 'in' k" :=
  (match m with Ok p => k | Err e => Err e end)
  (at level 10, p pattern, m at level 100, k at level 200, only parsing).

(** ** JSON-representable values *)

(** The Python objects that [json.loads] builds and [json.dumps] accepts.
    A [dict] keeps its keys in insertion order. A [float] is carried as the
    text of its literal: floating-point arithmetic is not modelled. *)
#[local] Unset Elimination Schemes.
Inductive json : Type :=
| JNull
| JBool (b : bool)
| JInt (z : Z)
| JFloat (lit : pystr)
| JStr (s : pystr)
| JList (l : list json)
| JDict (kvs : list (pystr * json)).
#[local] Set Elimination Schemes.

(** Induction on a value, with the hypothesis for every item of a list and
    every value of a dict. *)
Definition json_ind (P : json -> Prop)
    (Hnull : P JNull)
    (Hbool : forall b, P (JBool b))
    (Hint : forall z, P (JInt z))
    (Hfloat : forall lit, P (JFloat lit))
    (Hstr : forall s, P (JStr s))
    (Hlist : forall l, Forall P l -> P (JList l))
    (Hdict : forall kvs, Forall (fun kv => P kv.2) kvs -> P (JDict kvs))
  : forall v, P v :=
  fix go (v : json) : P v :=
    match v with
    | JNull => Hnull
    | JBool b => Hbool b
    | JInt z => Hint z
    | JFloat lit => Hfloat lit
    | JStr s => Hstr s
    | JList l =>
        Hlist l ((fix items (l : list json) : Forall P l :=
                    match l with
                    | [] => List.Forall_nil _
                    | x :: l' => List.Forall_cons _ x l' (go x) (items l')
                    end) l)
    | JDict kvs =>
        Hdict kvs
          ((fix pairs (kvs : list (pystr * json))
              : Forall (fun kv => P kv.2) kvs :=
              match kvs with
              | [] => List.Forall_nil _
              | kv :: kvs' =>
                  @List.Forall_cons _ (fun kv => P kv.2) kv kvs' (go kv.2) (pairs kvs')
              end) kvs)
    end.

(** [d.get(key)] on the entries of a dict. *)
Fixpoint dict_get (kvs : list (pystr * json)) (key : pystr) : option json :=
  match kvs with
  | [] => None
  | (k, v) :: rest => if bool_decide (k = key) then Some v
                      else dict_get rest key
  end.

(** [d[key] = v]: overwrite in place, or append a new key. *)
Fixpoint dict_set (kvs : list (pystr * json)) (key : pystr) (v : json)
  : list (pystr * json) :=
  match kvs with
  | [] => [(key, v)]
  | (k, w) :: rest => if bool_decide (k = key) then (k, v) :: rest
                      else (k, w) :: dict_set rest key v
  end.

(** [type(v).__name__] *)
Definition type_name (v : json) : pystr :=
  match v with
  | JNull => py "NoneType"
  | JBool _ => py "bool"
  | JInt _ => py "int"
  | JFloat _ => py "float"
  | JStr _ => py "str"
  | JList _ => py "list"
  | JDict _ => py "dict"
  end.

(** [v.get(key, default)]: only a dict has [get]. *)
Definition py_get (v : json) (key : pystr) (default : json) : result json :=
  match v with
  | JDict kvs => Ok (match dict_get kvs key with Some x => x | None => default end)
  | _ => raise AttributeError
           (py "'" ++ type_name v ++ py "' object has no attribute 'get'")
  end.
(* ================================================================== *)
(** * cache_manager.py : ThreadSafeCache *)

(** [self.available_lines] (a deque, in order) and
    [self.total_lines_loaded]. *)
Record ThreadSafeCache : Type := mkCache {
  available_lines : list pystr;
  total_lines_loaded : Z
}.

(** [__init__] *)
Definition cache_init : ThreadSafeCache :=
  {| available_lines := []; total_lines_loaded := 0 |}.

(** [add_lines]: extend the deque, bump the counter, return [len(lines)]. *)
Definition add_lines (lines : list pystr) (c : ThreadSafeCache)
  : Z * ThreadSafeCache :=
  (len lines,
   {| available_lines := available_lines c ++ lines;
      total_lines_loaded := total_lines_loaded c + len lines |}).

(** [random.sample(population, k)] returns the elements found at [k]
    distinct positions of [population]. The positions drawn on a call are
    the parameter [picks]; [is_random_sample] is the library's contract on
    them. *)
Definition random_sample {A} (picks : list nat) (population : list A)
    (k : nat) : list A :=
  omap (fun i => population !! i) (take k picks).

Definition is_random_sample (picks : list nat) (n k : nat) : Prop :=
  NoDup picks /\ Forall (fun i => (i < n)%nat) picks /\ length picks = k.

(** [sample]: the guard, the clamp [n = min(n, len)], the draw, and the
    rebuild of the deque from the lines that are not in [set(sampled)]. *)
Definition sample (picks : list nat) (n : Z) (c : ThreadSafeCache)
  : list pystr * ThreadSafeCache :=
  if bool_decide (available_lines c = []) || (n <=? 0) then ([], c)
  else
    let n := Z.min n (len (available_lines c)) in
    let lines_list := available_lines c in
    let sampled := random_sample picks lines_list (Z.to_nat n) in
    let sampled_set : gset pystr := list_to_set sampled in
    (sampled,
     {| available_lines :=
          filter (fun line => line ∉ sampled_set) lines_list;
        total_lines_loaded := total_lines_loaded c |}).

(** The draw of one call to [sample n] on [c] follows the library's
    contract: [min(n, len)] distinct positions of the deque. *)
Definition picks_ok (picks : list nat) (n : Z) (c : ThreadSafeCache) : Prop :=
  is_random_sample picks (length (available_lines c))
    (Z.to_nat (Z.min n (len (available_lines c)))).

(** [size] *)
Definition size (c : ThreadSafeCache) : Z := len (available_lines c).

(** [get_stats]: the two entries of the returned dict. *)
Definition get_stats (c : ThreadSafeCache) : Z * Z :=
  (len (available_lines c), total_lines_loaded c).


(** The number of instances of [line] in a sequence of lines. *)
Definition multiplicity (line : pystr) (l : list pystr) : nat :=
  length (filter (fun x => x = line) l).

(** The operations of the store, and the state each leaves. [size] and
    [get_stats] only read. *)
Inductive store_op : Type :=
| OpAddLines (lines : list pystr)
| OpSample (picks : list nat) (n : Z)
| OpSize
| OpStats.

Definition run_op (op : store_op) (c : ThreadSafeCache) : ThreadSafeCache :=
  match op with
  | OpAddLines lines => (add_lines lines c).2
  | OpSample picks n => (sample picks n c).2
  | OpSize | OpStats => c
  end.

Definition store_inv (c : ThreadSafeCache) : Prop :=
  len (available_lines c) <= total_lines_loaded c.


(* ================================================================== *)
(** * The [json] module of the standard library

    [json.dumps] with its defaults ([ensure_ascii=True], a comma and a
    colon each followed by a space as separators) and [json.loads] with its defaults (strict), as the
    C implementation behaves on the values of type [json]. Not modelled:
    the interpreter's recursion limit, its limit on the number of digits of
    an integer literal, and the character position that a
    [JSONDecodeError] message ends with. *)

(** ** Integers in decimal *)

Fixpoint digits_of (fuel : nat) (n : Z) (acc : pystr) : pystr :=
  let acc' := (48 + n mod 10) :: acc in
  match fuel with
  | O => acc'
  | S fuel' => if n <? 10 then acc' else digits_of fuel' (n / 10) acc'
  end.

(** [str(n)] / [repr(n)] for an int. *)
Definition str_of_int (z : Z) : pystr :=
  if z <? 0 then 45 :: digits_of (Z.to_nat (Z.log2 (- z))) (- z) []
  else digits_of (Z.to_nat (Z.log2 z)) z [].

(** ** Encoding *)

Definition hex_digit (d : Z) : Z := if d <? 10 then 48 + d else 87 + d.

(** ['{0:04x}'.format(n)] *)
Definition hex4 (n : Z) : pystr :=
  [hex_digit (n / 4096 mod 16); hex_digit (n / 256 mod 16);
   hex_digit (n / 16 mod 16); hex_digit (n mod 16)].

(** [\uXXXX] *)
Definition u_escape (n : Z) : pystr := 92 :: 117 :: hex4 n.

(** One character of a string under [ensure_ascii]: the short escapes,
    printable ASCII as it is, [\uXXXX] for the rest of the basic plane and a
    surrogate pair above it. *)
Definition escape_char (c : Z) : pystr :=
  if c =? 34 then [92; 34]              (* quote *)
  else if c =? 92 then [92; 92]         (* backslash *)
  else if c =? 10 then [92; 110]        (* newline *)
  else if c =? 13 then [92; 114]        (* carriage return *)
  else if c =? 9 then [92; 116]         (* tab *)
  else if c =? 8 then [92; 98]          (* backspace *)
  else if c =? 12 then [92; 102]        (* form feed *)
  else if (32 <=? c) && (c <=? 126) then [c]
  else if c <? 65536 then u_escape c
  else
    let v := c - 65536 in
    u_escape (55296 + v / 1024 mod 1024) ++ u_escape (56320 + v mod 1024).

(** [py_encode_basestring_ascii] *)
Definition encode_str (s : pystr) : pystr :=
  34 :: concat (map escape_char s) ++ [34].

(** The items joined by a comma and a space. *)
Fixpoint join_items (items : list pystr) : pystr :=
  match items with
  | [] => []
  | [x] => x
  | x :: rest => x ++ 44 :: 32 :: join_items rest
  end.

(** [json.dumps(v)] *)
Fixpoint json_dumps (v : json) : pystr :=
  match v with
  | JNull => py "null"
  | JBool true => py "true"
  | JBool false => py "false"
  | JInt z => str_of_int z
  | JFloat lit => lit
  | JStr s => encode_str s
  | JList l => 91 :: join_items (map json_dumps l) ++ [93]
  | JDict kvs =>
      123 :: join_items
               (map (fun kv => encode_str kv.1 ++ 58 :: 32 :: json_dumps kv.2)
                    kvs) ++ [125]
  end.

(** ** Decoding *)

Definition decode_error {A} (msg : string) : result A :=
  raise JSONDecodeError (py msg).

(** The whitespace [json] skips: space, tab, newline, carriage return. *)
Definition is_ws (c : Z) : bool :=
  (c =? 32) || (c =? 9) || (c =? 10) || (c =? 13).

Fixpoint skip_ws (s : pystr) : pystr :=
  match s with
  | c :: rest => if is_ws c then skip_ws rest else s
  | [] => []
  end.

Definition is_digit (c : Z) : bool := (48 <=? c) && (c <=? 57).

(** The longest prefix of digits, and what follows it. *)
Fixpoint span_digits (s : pystr) : pystr * pystr :=
  match s with
  | c :: rest =>
      if is_digit c then let '(ds, r) := span_digits rest in (c :: ds, r)
      else ([], s)
  | [] => ([], [])
  end.

(** [int(ds)] for a non-empty run of ASCII digits. *)
Definition int_of_digits (ds : pystr) : Z :=
  fold_left (fun acc d => acc * 10 + (d - 48)) ds 0.

Definition hex_val (c : Z) : option Z :=
  if (48 <=? c) && (c <=? 57) then Some (c - 48)
  else if (97 <=? c) && (c <=? 102) then Some (c - 87)
  else if (65 <=? c) && (c <=? 70) then Some (c - 55)
  else None.

Definition hex4_val (a b c d : Z) : option Z :=
  match hex_val a, hex_val b, hex_val c, hex_val d with
  | Some x3, Some x2, Some x1, Some x0 =>
      Some (((x3 * 16 + x2) * 16 + x1) * 16 + x0)
  | _, _, _, _ => None
  end.

Definition is_high_surrogate (u : Z) : bool := (55296 <=? u) && (u <=? 56319).
Definition is_low_surrogate (u : Z) : bool := (56320 <=? u) && (u <=? 57343).
Definition join_surrogates (hi lo : Z) : Z :=
  65536 + (hi - 55296) * 1024 + (lo - 56320).

(** The character a one-letter escape stands for. *)
Definition unescape (e : Z) : option Z :=
  if e =? 34 then Some 34
  else if e =? 92 then Some 92
  else if e =? 47 then Some 47
  else if e =? 98 then Some 8
  else if e =? 102 then Some 12
  else if e =? 110 then Some 10
  else if e =? 114 then Some 13
  else if e =? 116 then Some 9
  else None.

Definition cons_char (c : Z) (r : result (pystr * pystr))
  : result (pystr * pystr) :=
  let* '(s, rest) := r in Ok (c :: s, rest).

(** [scanstring], strict: the text after an opening quote, up to the
    closing one. Returns the string and the text after the closing quote. A
    high surrogate escape directly followed by a low surrogate escape (and
    at least one more character) is joined into one character. *)
Fixpoint scanstring (s : pystr) : result (pystr * pystr) :=
  match s with
  | [] => decode_error "Unterminated string starting at"
  | c :: r =>
      if c =? 34 then Ok ([], r)
      else if c =? 92 then
        match r with
        | [] => decode_error "Unterminated string starting at"
        | e :: r1 =>
            if e =? 117 then
              match r1 with
              | a :: b :: c1 :: d :: ((_ :: _) as r2) =>
                  match hex4_val a b c1 d with
                  | None => decode_error "Invalid \uXXXX escape"
                  | Some u =>
                      match r2 with
                      | bs :: lu :: a2 :: b2 :: c2 :: d2 :: ((_ :: _) as r3) =>
                          if is_high_surrogate u && (bs =? 92) && (lu =? 117)
                          then
                            match hex4_val a2 b2 c2 d2 with
                            | None => decode_error "Invalid \uXXXX escape"
                            | Some u2 =>
                                if is_low_surrogate u2
                                then cons_char (join_surrogates u u2)
                                       (scanstring r3)
                                else cons_char u (scanstring r2)
                            end
                          else cons_char u (scanstring r2)
                      | _ => cons_char u (scanstring r2)
                      end
                  end
              | _ => decode_error "Invalid \uXXXX escape"
              end
            else
              match unescape e with
              | Some ch => cons_char ch (scanstring r1)
              | None => decode_error "Invalid \escape"
              end
        end
      else if c <=? 31 then decode_error "Invalid control character at"
      else cons_char c (scanstring r)
  end.

(** [s.startswith(prefix)], returning what follows the prefix. *)
Fixpoint strip_prefix (prefix s : pystr) : option pystr :=
  match prefix, s with
  | [], _ => Some s
  | p :: prefix', c :: s' => if p =? c then strip_prefix prefix' s' else None
  | _ :: _, [] => None
  end.

(** [_match_number]: an optional minus, an integer part without a leading
    zero, then an optional fraction and an optional exponent, each taken
    only when it has a digit. With a fraction or an exponent the number is a
    float. *)
Definition match_number (s : pystr) : result (json * pystr) :=
  let '(sign, s1) := match s with
                     | c :: r => if c =? 45 then ([45], r) else ([], s)
                     | [] => ([], s)
                     end in
  let int_part :=
    match s1 with
    | c :: r =>
        if (49 <=? c) && (c <=? 57)
        then let '(ds, r') := span_digits r in Some (c :: ds, r')
        else if c =? 48 then Some ([48], r)
        else None
    | [] => None
    end in
  match int_part with
  | None => decode_error "Expecting value"
  | Some (ds, r) =>
      let '(frac, r2) :=
        match r with
        | p :: d :: _ =>
            if (p =? 46) && is_digit d
            then let '(fs, r') := span_digits (tail r) in (46 :: fs, r')
            else ([], r)
        | _ => ([], r)
        end in
      let '(expo, r4) :=
        match r2 with
        | e :: r3 =>
            if (e =? 101) || (e =? 69) then
              let '(esign, r3') :=
                match r3 with
                | sg :: r' => if (sg =? 45) || (sg =? 43) then ([sg], r')
                              else ([], r3)
                | [] => ([], r3)
                end in
              match span_digits r3' with
              | ([], _) => ([], r2)
              | (es, r') => (e :: esign ++ es, r')
              end
            else ([], r2)
        | [] => ([], r2)
        end in
      match frac, expo with
      | [], [] => Ok (JInt (if sign is [] then int_of_digits ds
                            else - int_of_digits ds), r4)
      | _, _ => Ok (JFloat (sign ++ ds ++ frac ++ expo), r4)
      end
  end.

Section Containers.
(** [scan_once] one level further down. *)
Variable scan : pystr -> result (json * pystr).

(** The items of an array from its first item on, up to the closing
    bracket. [n] bounds the number of items. *)
Fixpoint parse_array_items (n : nat) (s : pystr)
  : result (list json * pystr) :=
  match n with
  | O => decode_error "Expecting value"
  | S n' =>
      let* '(v, r) := scan s in
      match skip_ws r with
      | c :: r' =>
          if c =? 93 then Ok ([v], r')
          else if c =? 44 then
            let* '(vs, r'') := parse_array_items n' (skip_ws r') in
            Ok (v :: vs, r'')
          else decode_error "Expecting ',' delimiter"
      | [] => decode_error "Expecting ',' delimiter"
      end
  end.

(** [_parse_array], after the opening bracket. *)
Definition parse_array (s : pystr) : result (json * pystr) :=
  let s' := skip_ws s in
  match s' with
  | c :: r =>
      if c =? 93 then Ok (JList [], r)
      else let* '(vs, r) := parse_array_items (length s') s' in
           Ok (JList vs, r)
  | [] => decode_error "Expecting value"
  end.

(** The pairs of an object from its first key on, up to the closing
    brace. *)
Fixpoint parse_object_items (n : nat) (s : pystr)
  : result (list (pystr * json) * pystr) :=
  match n with
  | O => decode_error "Expecting value"
  | S n' =>
      let* '(key, r1) :=
        match s with
        | c :: r =>
            if c =? 34 then scanstring r
            else decode_error
                   "Expecting property name enclosed in double quotes"
        | [] => decode_error
                  "Expecting property name enclosed in double quotes"
        end in
      let* r2 :=
        match skip_ws r1 with
        | c :: r2 => if c =? 58 then Ok r2
                     else decode_error "Expecting ':' delimiter"
        | [] => decode_error "Expecting ':' delimiter"
        end in
      let* '(v, r3) := scan (skip_ws r2) in
      match skip_ws r3 with
      | c :: r4 =>
          if c =? 125 then Ok ([(key, v)], r4)
          else if c =? 44 then
            let* '(kvs, r5) := parse_object_items n' (skip_ws r4) in
            Ok ((key, v) :: kvs, r5)
          else decode_error "Expecting ',' delimiter"
      | [] => decode_error "Expecting ',' delimiter"
      end
  end.

(** The dict of the pairs in the order read: a repeated key keeps its
    first position and takes the last value. *)
Definition dict_of_pairs (pairs : list (pystr * json))
  : list (pystr * json) :=
  fold_left (fun d kv => dict_set d kv.1 kv.2) pairs [].

(** [_parse_object], after the opening brace. *)
Definition parse_object (s : pystr) : result (json * pystr) :=
  let s' := skip_ws s in
  match s' with
  | c :: r =>
      if c =? 125 then Ok (JDict [], r)
      else let* '(pairs, r) := parse_object_items (length s') s' in
           Ok (JDict (dict_of_pairs pairs), r)
  | [] => decode_error "Expecting property name enclosed in double quotes"
  end.
End Containers.

(** [scan_once]. [fuel] bounds the nesting of arrays and objects. *)
Fixpoint scan_once (fuel : nat) (s : pystr) : result (json * pystr) :=
  match fuel with
  | O => decode_error "Expecting value"
  | S fuel' =>
      match s with
      | [] => decode_error "Expecting value"
      | c :: r =>
          if c =? 34 then
            let* '(str, r') := scanstring r in Ok (JStr str, r')
          else if c =? 123 then parse_object (scan_once fuel') r
          else if c =? 91 then parse_array (scan_once fuel') r
          else
            match strip_prefix (py "null") s,
                  strip_prefix (py "true") s,
                  strip_prefix (py "false") s,
                  strip_prefix (py "NaN") s,
                  strip_prefix (py "Infinity") s,
                  strip_prefix (py "-Infinity") s with
            | Some r', _, _, _, _, _ => Ok (JNull, r')
            | _, Some r', _, _, _, _ => Ok (JBool true, r')
            | _, _, Some r', _, _, _ => Ok (JBool false, r')
            | _, _, _, Some r', _, _ => Ok (JFloat (py "NaN"), r')
            | _, _, _, _, Some r', _ => Ok (JFloat (py "Infinity"), r')
            | _, _, _, _, _, Some r' => Ok (JFloat (py "-Infinity"), r')
            | _, _, _, _, _, _ => match_number s
            end
      end
  end.

(** [json.loads(s)] for a [str]: one value between optional whitespace. *)
Definition json_loads (s : pystr) : result json :=
  if match s with c :: _ => c =? 65279 | [] => false end
  then decode_error "Unexpected UTF-8 BOM (decode using utf-8-sig)"
  else
    let* '(v, r) := scan_once (S (length s)) (skip_ws s) in
    match skip_ws r with
    | [] => Ok v
    | _ :: _ => decode_error "Extra data"
    end.

(* ================================================================== *)
(** * The UTF-8 codec: [str.encode('utf-8')] and [bytes.decode('utf-8')] *)

Definition byte_of_Z (z : Z) : byte :=
  match Byte.of_N (Z.to_N z) with
  | Some b => b
  | None => x00
  end.

Definition Z_of_byte (b : byte) : Z := Z.of_N (Byte.to_N b).

Definition utf8_char (c : Z) : option (list byte) :=
  if c <? 0 then None
  else if c <? 128 then Some [byte_of_Z c]
  else if c <? 2048 then
    Some [byte_of_Z (192 + c / 64); byte_of_Z (128 + c mod 64)]
  else if is_high_surrogate c || is_low_surrogate c then None
  else if c <? 65536 then
    Some [byte_of_Z (224 + c / 4096); byte_of_Z (128 + c / 64 mod 64);
          byte_of_Z (128 + c mod 64)]
  else if c <? 1114112 then
    Some [byte_of_Z (240 + c / 262144); byte_of_Z (128 + c / 4096 mod 64);
          byte_of_Z (128 + c / 64 mod 64); byte_of_Z (128 + c mod 64)]
  else None.

(** [s.encode('utf-8')] *)
Fixpoint str_encode (s : pystr) : result (list byte) :=
  match s with
  | [] => Ok []
  | c :: rest =>
      match utf8_char c with
      | None => raise UnicodeEncodeError
                  (py "'utf-8' codec can't encode character")
      | Some bs => let* tl := str_encode rest in Ok (bs ++ tl)
      end
  end.

Definition is_cont (x : Z) : bool := (128 <=? x) && (x <=? 191).

Definition undecodable {A} : result A :=
  raise UnicodeDecodeError (py "'utf-8' codec can't decode byte").

Definition cons_point (c : Z) (r : result pystr) : result pystr :=
  let* s := r in Ok (c :: s).

(** [data.decode('utf-8')], strict: shortest forms only, no surrogates,
    nothing above U+10FFFF. *)
Fixpoint bytes_decode (data : list byte) : result pystr :=
  match data with
  | [] => Ok []
  | b0 :: r =>
      let x0 := Z_of_byte b0 in
      if x0 <? 128 then cons_point x0 (bytes_decode r)
      else if (194 <=? x0) && (x0 <=? 223) then
        match r with
        | b1 :: r1 =>
            let x1 := Z_of_byte b1 in
            if is_cont x1
            then cons_point ((x0 - 192) * 64 + (x1 - 128)) (bytes_decode r1)
            else undecodable
        | _ => undecodable
        end
      else if (224 <=? x0) && (x0 <=? 239) then
        match r with
        | b1 :: b2 :: r2 =>
            let x1 := Z_of_byte b1 in
            let x2 := Z_of_byte b2 in
            if ((if x0 =? 224 then 160 else 128) <=? x1)
               && (x1 <=? (if x0 =? 237 then 159 else 191))
               && is_cont x2
            then cons_point
                   ((x0 - 224) * 4096 + (x1 - 128) * 64 + (x2 - 128))
                   (bytes_decode r2)
            else undecodable
        | _ => undecodable
        end
      else if (240 <=? x0) && (x0 <=? 244) then
        match r with
        | b1 :: b2 :: b3 :: r3 =>
            let x1 := Z_of_byte b1 in
            let x2 := Z_of_byte b2 in
            let x3 := Z_of_byte b3 in
            if ((if x0 =? 240 then 144 else 128) <=? x1)
               && (x1 <=? (if x0 =? 244 then 143 else 191))
               && is_cont x2 && is_cont x3
            then cons_point
                   ((x0 - 240) * 262144 + (x1 - 128) * 4096
                    + (x2 - 128) * 64 + (x3 - 128))
                   (bytes_decode r3)
            else undecodable
        | _ => undecodable
        end
      else undecodable
  end.

(* ================================================================== *)
(** * protocol.py *)

Definition SOCKET_PATH : pystr := py "/tmp/line_sampler.sock".

Definition MAX_MESSAGE_SIZE : Z := 10 * 1024 * 1024.

(** The dict that [encode_request] serializes. *)
Definition request_message (method : pystr) (params : json) : json :=
  JDict [(py "type", JStr (py "request"));
         (py "method", JStr method);
         (py "params", params)].

(** [Protocol.encode_request] *)
Definition encode_request (method : pystr) (params : json)
  : result (list byte) :=
  str_encode (json_dumps (request_message method params)).

(** [Optional[str]] as a value: [None] or the string. *)
Definition of_optional (o : option pystr) : json :=
  match o with
  | None => JNull
  | Some s => JStr s
  end.

(** The dict that [encode_response] serializes. *)
Definition response_message (res : json) (error : option pystr) : json :=
  JDict [(py "type", JStr (py "response"));
         (py "result", res);
         (py "error", of_optional error)].

(** [Protocol.encode_response] *)
Definition encode_response (res : json) (error : option pystr)
  : result (list byte) :=
  str_encode (json_dumps (response_message res error)).

(** [Protocol.decode] *)
Definition decode (data : list byte) : result json :=
  let* s := bytes_decode data in json_loads s.

(* ================================================================== *)
(** * server.py : LineServer *)

(** What the handlers take from the interpreter and the machine: the
    builtins on values that are not modelled, the file system and the
    random generator. *)
Record PyRuntime : Type := mkRuntime {
  (** [int(s)] for a [str] *)
  rt_int_of_str : pystr -> result Z;
  (** [int(x)] for the float with this literal *)
  rt_int_of_float : pystr -> result Z;
  (** [bool(x)] for the float with this literal *)
  rt_float_truth : pystr -> bool;
  (** [str(x)] for a float, a list or a dict *)
  rt_repr : json -> pystr;
  (** [open(path, 'r', encoding='utf-8')] followed by [readlines()] *)
  rt_readlines : json -> result (list pystr);
  (** the positions [random.sample] draws while request number [i] of the
      session is served *)
  rt_picks : nat -> list nat;
  (** the exception, if any, of the first ([0]) or second ([1]) call of
      [sendall] while request number [i] is served *)
  rt_send_error : nat -> nat -> option exn
}.

Section Handlers.
Variable rt : PyRuntime.

(** [bool(v)] *)
Definition truthy (v : json) : bool :=
  match v with
  | JNull => false
  | JBool b => b
  | JInt z => negb (z =? 0)
  | JFloat lit => rt_float_truth rt lit
  | JStr s => negb (bool_decide (s = []))
  | JList l => negb (bool_decide (l = []))
  | JDict kvs => negb (bool_decide (kvs = []))
  end.

(** [int(v)] *)
Definition py_int (v : json) : result Z :=
  match v with
  | JInt z => Ok z
  | JBool b => Ok (if b then 1 else 0)
  | JStr s => rt_int_of_str rt s
  | JFloat lit => rt_int_of_float rt lit
  | JNull | JList _ | JDict _ =>
      raise TypeError
        (py "int() argument must be a string, a bytes-like object or a real number, not '"
         ++ type_name v ++ py "'")
  end.

(** [str(v)], as an f-string formats a value *)
Definition py_str (v : json) : pystr :=
  match v with
  | JNull => py "None"
  | JBool true => py "True"
  | JBool false => py "False"
  | JInt z => str_of_int z
  | JStr s => s
  | JFloat _ | JList _ | JDict _ => rt_repr rt v
  end.

(** [v == s] for a string constant [s] *)
Definition eq_str (v : json) (s : pystr) : bool :=
  match v with
  | JStr s' => bool_decide (s' = s)
  | _ => false
  end.

(** [line.rstrip(chars)] for [chars] a newline and a carriage return *)
Fixpoint lstrip_newlines (line : pystr) : pystr :=
  match line with
  | c :: rest => if (c =? 10) || (c =? 13) then lstrip_newlines rest
                 else line
  | [] => []
  end.

Definition rstrip_newlines (line : pystr) : pystr :=
  reverse (lstrip_newlines (reverse line)).

(** [LineServer.handle_load] *)
Definition handle_load (params : json) (cache : ThreadSafeCache)
  : result json * ThreadSafeCache :=
  match py_get params (py "file_path") JNull with
  | Err e => (Err e, cache)
  | Ok file_path =>
      if negb (truthy file_path)
      then (raise ValueError (py "Missing file_path parameter"), cache)
      else
        match rt_readlines rt file_path with
        | Err e =>
            (raise ValueError (py "Error reading file: " ++ exn_str e),
             cache)
        | Ok lines =>
            let lines := map rstrip_newlines lines in
            let '(count, cache') := add_lines lines cache in
            (Ok (JDict [(py "lines_read", JInt count)]), cache')
        end
  end.

(** The [try] block of [handle_sample]: [int(n)], then the sign check;
    a [ValueError] of either is replaced by the handler's own. *)
Definition coerce_n (n : json) : result Z :=
  let attempt :=
    let* z := py_int n in
    if z <? 0 then raise ValueError (py "n must be non-negative")
    else Ok z in
  match attempt with
  | Ok z => Ok z
  | Err e => if is_ValueError (exn_cls e)
             then raise ValueError (py "n must be an integer")
             else Err e
  end.

(** [LineServer.handle_sample], for request number [i] *)
Definition handle_sample (i : nat) (params : json) (cache : ThreadSafeCache)
  : result json * ThreadSafeCache :=
  match py_get params (py "n") JNull with
  | Err e => (Err e, cache)
  | Ok JNull => (raise ValueError (py "Missing n parameter"), cache)
  | Ok n =>
      match coerce_n n with
      | Err e => (Err e, cache)
      | Ok n =>
          let '(lines, cache') := sample (rt_picks rt i) n cache in
          (Ok (JDict [(py "lines", JList (map JStr lines))]), cache')
      end
  end.

(** The body of the inner [try] of [handle_client] up to the result of
    the request: decode, check the type, dispatch on the method. *)
Definition dispatch (i : nat) (data : list byte) (cache : ThreadSafeCache)
  : result json * ThreadSafeCache :=
  match decode data with
  | Err e => (Err e, cache)
  | Ok message =>
      match py_get message (py "type") JNull with
      | Err e => (Err e, cache)
      | Ok type =>
          if negb (eq_str type (py "request"))
          then (raise ValueError (py "Invalid message type"), cache)
          else
            match py_get message (py "method") JNull with
            | Err e => (Err e, cache)
            | Ok method =>
                match py_get message (py "params") (JDict []) with
                | Err e => (Err e, cache)
                | Ok params =>
                    if eq_str method (py "load")
                    then handle_load params cache
                    else if eq_str method (py "sample")
                    then handle_sample i params cache
                    else (raise ValueError
                            (py "Unknown method: " ++ py_str method),
                          cache)
                end
            end
      end
  end.

(** [client_socket.sendall(response)], call number [attempt] for request
    number [i]. *)
Definition sendall (i attempt : nat) (response : list byte) : result unit :=
  match rt_send_error rt i attempt with
  | None => Ok tt
  | Some e => Err e
  end.

(** The inner [try] block of [handle_client] on the non-empty [data] that
    [recv] returned: the request, the encoding of its result and its
    [sendall]. [Ok response] is the response sent. *)
Definition try_request (i : nat) (data : list byte) (cache : ThreadSafeCache)
  : result (list byte) * ThreadSafeCache :=
  let '(r, cache') := dispatch i data cache in
  (let* res := r in
   let* response := encode_response res None in
   let* _ := sendall i 0 response in
   Ok response,
   cache').

(** One iteration of the loop: the inner [try] with its
    [except Exception], which sends the Error response of the exception.
    [Err e] is an exception that leaves the [except] clause for the outer
    [try]. *)
Definition handle_request (i : nat) (data : list byte)
    (cache : ThreadSafeCache) : result (list byte) * ThreadSafeCache :=
  match try_request i data cache with
  | (Ok response, cache') => (Ok response, cache')
  | (Err e, cache') =>
      (let* response := encode_response JNull (Some (exn_str e)) in
       let* _ := sendall i 1 response in
       Ok response,
       cache')
  end.

(** [LineServer.handle_client]. [incoming] is what the successive calls of
    [recv(MAX_MESSAGE_SIZE)] do before the peer closes: return data or
    raise; once it is used up [recv] returns no data. The loop ends on no
    data; an exception of [recv], or one that leaves [handle_request],
    reaches the outer [except], and the socket is closed. The result is the
    responses sent, in order, and the store the session leaves. *)
Fixpoint handle_client (i : nat) (incoming : list (result (list byte)))
    (cache : ThreadSafeCache) : list (list byte) * ThreadSafeCache :=
  match incoming with
  | [] => ([], cache)
  | Err _ :: _ => ([], cache)
  | Ok data :: rest =>
      if bool_decide (data = []) then ([], cache)
      else
        match handle_request i data cache with
        | (Ok response, cache') =>
            let '(sent, final) := handle_client (S i) rest cache' in
            (response :: sent, final)
        | (Err _, cache') => ([], cache')
        end
  end.
End Handlers.

(* ================================================================== *)
(** * Vocabulary of the properties *)

(** No float anywhere in the value. *)
Fixpoint float_free (v : json) : bool :=
  match v with
  | JFloat _ => false
  | JNull | JBool _ | JInt _ | JStr _ => true
  | JList l => forallb float_free l
  | JDict kvs => forallb (fun kv => float_free kv.2) kvs
  end.

(** A code point: U+0000 to U+10FFFF. *)
Definition is_code_point (c : Z) : bool := (0 <=? c) && (c <=? 1114111).

(** The strings the protocol represents: code points, with no high
    surrogate directly followed by a low surrogate. (Python allows such a
    pair in a [str]; its escaped form is that of the one character the two
    surrogates stand for, and it is read back as that character.) *)
Fixpoint text (s : pystr) : bool :=
  match s with
  | [] => true
  | c :: rest =>
      is_code_point c
      && negb (is_high_surrogate c
               && match rest with
                  | d :: _ => is_low_surrogate d
                  | [] => false
                  end)
      && text rest
  end.

(** The text starts with the escape of a low surrogate (or with an escape
    that is not four hexadecimal digits) and goes on after it. *)
Definition low_escape_follows (tail : pystr) : bool :=
  match tail with
  | bs :: lu :: a :: b :: c :: d :: _ :: _ =>
      (bs =? 92) && (lu =? 117)
      && match hex4_val a b c d with
         | Some u => is_low_surrogate u
         | None => true
         end
  | _ => false
  end.

(** The values the protocol represents: null, booleans, integers, such
    strings, lists, and dicts with distinct string keys. *)
Fixpoint representable (v : json) : bool :=
  match v with
  | JNull | JBool _ | JInt _ => true
  | JFloat _ => false
  | JStr s => text s
  | JList l => forallb representable l
  | JDict kvs =>
      forallb (fun kv => text kv.1 && representable kv.2) kvs
      && bool_decide (NoDup kvs.*1)
  end.

(** The bytes of an ASCII text. *)
Definition ascii_bytes (s : pystr) : list byte := map byte_of_Z s.

(** The wire form of a message: the bytes of its JSON text. *)
Definition wire (message : json) : list byte :=
  ascii_bytes (json_dumps message).

(** An unsigned integer of [w] bytes, most or least significant byte
    first. *)
Inductive byte_order : Type := BigEndian | LittleEndian.

Definition uint_of_bytes (order : byte_order) (bs : list byte) : Z :=
  match order with
  | BigEndian => fold_left (fun acc b => acc * 256 + Z_of_byte b) bs 0
  | LittleEndian => fold_right (fun b acc => Z_of_byte b + 256 * acc) 0 bs
  end.

(** [data] is a length-prefixed frame for a prefix of [w] bytes: the
    prefix holds the number of bytes that follow it. *)
Definition length_prefixed (w : nat) (order : byte_order) (data : list byte)
  : Prop :=
  (w <= length data)%nat /\
  uint_of_bytes order (take w data) = Z.of_nat (length data - w).

Definition is_ascii (c : Z) : Prop := 0 <= c < 128.

(** [d.get(key)] with [None] for a missing key. *)
Definition field (kvs : list (pystr * json)) (key : string) : json :=
  match dict_get kvs (py key) with
  | Some v => v
  | None => JNull
  end.

(** [data] decodes to a request object for [method] whose parameters
    ([{}] when the key is missing) are [params]. *)
Definition is_request (data : list byte) (method : json) (params : json)
  : Prop :=
  exists kvs,
    decode data = Ok (JDict kvs) /\
    field kvs "type" = JStr (py "request") /\
    field kvs "method" = method /\
    match dict_get kvs (py "params") with
    | Some p => p
    | None => JDict []
    end = params.

Definition is_dict (v : json) : bool :=
  match v with
  | JDict _ => true
  | _ => false
  end.

(** The exception of [v.get] on a value that is not a dict. *)
Definition no_get (v : json) : exn :=
  mkExn AttributeError
    (py "'" ++ type_name v ++ py "' object has no attribute 'get'").

(** The messages that do not make a valid request, with the exception each
    one ends in: text that is not UTF-8 or not JSON, a value that is not an
    object, a wrong type tag, an unknown method, parameters that are not an
    object, a missing file path, a missing [n], and an [n] that is not a
    non-negative integer. *)
Inductive bad_request (rt : PyRuntime) (data : list byte) : exn -> Prop :=
| bad_encoding e :
    decode data = Err e -> bad_request rt data e
| bad_shape v :
    decode data = Ok v -> is_dict v = false -> bad_request rt data (no_get v)
| bad_type kvs :
    decode data = Ok (JDict kvs) ->
    field kvs "type" <> JStr (py "request") ->
    bad_request rt data (mkExn ValueError (py "Invalid message type"))
| bad_method method params :
    is_request data method params ->
    method <> JStr (py "load") -> method <> JStr (py "sample") ->
    bad_request rt data
      (mkExn ValueError (py "Unknown method: " ++ py_str rt method))
| bad_params method params :
    is_request data method params ->
    method = JStr (py "load") \/ method = JStr (py "sample") ->
    is_dict params = false ->
    bad_request rt data (no_get params)
| missing_file_path ps :
    is_request data (JStr (py "load")) (JDict ps) ->
    truthy rt (field ps "file_path") = false ->
    bad_request rt data (mkExn ValueError (py "Missing file_path parameter"))
| missing_n ps :
    is_request data (JStr (py "sample")) (JDict ps) ->
    field ps "n" = JNull ->
    bad_request rt data (mkExn ValueError (py "Missing n parameter"))
| uncoercible_n ps e :
    is_request data (JStr (py "sample")) (JDict ps) ->
    field ps "n" <> JNull ->
    py_int rt (field ps "n") = Err e ->
    bad_request rt data
      (if is_ValueError (exn_cls e)
       then mkExn ValueError (py "n must be an integer") else e)
| negative_n ps z :
    is_request data (JStr (py "sample")) (JDict ps) ->
    py_int rt (field ps "n") = Ok z -> z < 0 ->
    bad_request rt data (mkExn ValueError (py "n must be an integer")).

(** The Error response that carries [str(e)]. *)
Definition error_response (e : exn) : list byte :=
  wire (response_message JNull (Some (exn_str e))).

(** The Result response that carries [res]. *)
Definition result_response (res : json) : list byte :=
  wire (response_message res None).

(** A runtime to run the handlers on: [int] reads an optional minus and
    ASCII digits, one file of three lines exists, every draw takes the
    first positions, and every [sendall] succeeds. *)
Definition example_int_of_str (s : pystr) : result Z :=
  let bad := raise ValueError (py "invalid literal for int() with base 10") in
  match s with
  | 45 :: (_ :: _) as ds =>
      if forallb is_digit ds then Ok (- int_of_digits ds) else bad
  | _ :: _ => if forallb is_digit s then Ok (int_of_digits s) else bad
  | [] => bad
  end.

Definition example_runtime : PyRuntime :=
  {| rt_int_of_str := example_int_of_str;
     rt_int_of_float := fun _ => raise OverflowError
                                   (py "cannot convert float infinity to integer");
     rt_float_truth := fun _ => true;
     rt_repr := json_dumps;
     rt_readlines := fun path =>
       if eq_str path (py "a.txt")
       then Ok [py "one" ++ [10]; py "two" ++ [13; 10]; py "one"]
       else raise OSError (py "[Errno 2] No such file or directory");
     rt_picks := fun _ => seq 0 8;
     rt_send_error := fun _ _ => None |}.

(** What may follow an integer literal: anything but a digit, a dot or an
    exponent mark. *)
Definition ends_number (rest : pystr) : bool :=
  match rest with
  | [] => true
  | c :: _ => negb (is_digit c || (c =? 46) || (c =? 101) || (c =? 69))
  end.

(** How the text of a value starts: not with whitespace, a closing bracket
    or brace, or a byte order mark. *)
Definition value_start (s : pystr) : bool :=
  match s with
  | [] => false
  | c :: _ => negb (is_ws c || (c =? 93) || (c =? 125) || (c =? 65279))
  end.

(** The text of one pair of an object. *)
Definition pair_text (kv : pystr * json) : pystr :=
  encode_str kv.1 ++ 58 :: 32 :: json_dumps kv.2.

(** [scan] reads back the text of [v] before any text that ends a
    number. *)
Definition reads_back (scan : pystr -> result (json * pystr)) (v : json)
  : Prop :=
  forall rest, ends_number rest = true ->
               scan (json_dumps v ++ rest) = Ok (v, rest).

(** No [sendall] raises. *)
Definition reliable_transport (rt : PyRuntime) : Prop :=
  forall i attempt, rt_send_error rt i attempt = None.

(** A call of [recv] that returns data. *)
Definition received (r : result (list byte)) : Prop :=
  exists data, r = Ok data /\ data <> [].

(** [int(x)] for the float that a plain decimal literal denotes: an
    optional minus, digits, a point, digits, at most 15 digits in all, so
    that the float has the integer part of the literal. [int] truncates
    toward zero: the result is the integer part with the sign. Any other
    literal is left as in [example_runtime]. *)
Definition example_int_of_float (lit : pystr) : result Z :=
  let other := rt_int_of_float example_runtime lit in
  let '(negative, body) :=
    match lit with
    | c :: r => if c =? 45 then (true, r) else (false, lit)
    | [] => (false, lit)
    end in
  let '(ds, r) := span_digits body in
  match ds, r with
  | _ :: _, p :: ((_ :: _) as fs) =>
      if (p =? 46) && forallb is_digit fs
         && (Z.of_nat (length ds + length fs) <=? 15)
      then Ok (if negative then - int_of_digits ds else int_of_digits ds)
      else other
  | _, _ => other
  end.

(** [example_runtime] with [int] defined on floats. *)
Definition float_runtime : PyRuntime :=
  {| rt_int_of_str := rt_int_of_str example_runtime;
     rt_int_of_float := example_int_of_float;
     rt_float_truth := rt_float_truth example_runtime;
     rt_repr := rt_repr example_runtime;
     rt_readlines := rt_readlines example_runtime;
     rt_picks := rt_picks example_runtime;
     rt_send_error := rt_send_error example_runtime |}.

(** A JSON string literal of ASCII text without escapes: the text between
    double quotes. *)
Definition quoted (s : string) : pystr := [34] ++ py s ++ [34].

(** The text of a sample request whose [n] is the number [-0.5]. *)
Definition fraction_request : pystr :=
  py "{" ++ quoted "type" ++ py ": " ++ quoted "request" ++ py ", "
  ++ quoted "method" ++ py ": " ++ quoted "sample" ++ py ", "
  ++ quoted "params" ++ py ": {" ++ quoted "n" ++ py ": -0.5}}".

(* ================================================================== *)
(** * Vocabulary of the further properties *)

(** The number of lines the call [op] returns on the store [c]. *)
Definition returned_by (op : store_op) (c : ThreadSafeCache) : Z :=
  match op with
  | OpSample picks n => len (sample picks n c).1
  | OpAddLines _ | OpSize | OpStats => 0
  end.

(** A run of store operations from [c], with the number of lines handed
    out so far: the store the run leaves and the lines handed out in all. *)
Fixpoint run_ops (ops : list store_op) (c : ThreadSafeCache) (handed : Z)
  : ThreadSafeCache * Z :=
  match ops with
  | [] => (c, handed)
  | op :: rest => run_ops rest (run_op op c) (handed + returned_by op c)
  end.

(** Every draw of the run is made of distinct positions. *)
Definition distinct_draws (ops : list store_op) : Prop :=
  Forall (fun op => match op with
                    | OpSample picks _ => NoDup picks
                    | OpAddLines _ | OpSize | OpStats => True
                    end) ops.

(** A printable ASCII character: from the space to the tilde. *)
Definition is_printable (c : Z) : Prop := 32 <= c <= 126.

(** A line terminator that [rstrip] removes: newline or carriage return. *)
Definition is_newline (c : Z) : Prop := c = 10 \/ c = 13.

(* ================================================================== *)
(** * client.py : LineClient *)

(** How a call of the client ends: it returns, it raises
    [Exception(response["error"])] for the error the server reported, or
    another exception leaves it. *)
Inductive client_result (A : Type) : Type :=
| Returned (a : A)
| ServerError (error : json)
| Raised (e : exn).
Arguments Returned {A} a.
Arguments ServerError {A} error.
Arguments Raised {A} e.

Section Client.
(** The interpreter of the client. *)
Variable rt : PyRuntime.

(** [socket.sendall(request)] followed by [socket.recv(MAX_MESSAGE_SIZE)]:
    what the peer answers to the request, or the exception of either
    call. *)
Variable exchange : list byte -> result (list byte).

(** [LineClient._send_request] from the decoding of the response on: a
    truthy [error] is raised, else the [result] is returned, [{}] when the
    key is missing. *)
Definition check_response (response_data : list byte) : client_result json :=
  match decode response_data with
  | Err e => Raised e
  | Ok response =>
      match py_get response (py "error") JNull with
      | Err e => Raised e
      | Ok error =>
          if truthy rt error then ServerError error
          else
            match py_get response (py "result") (JDict []) with
            | Err e => Raised e
            | Ok res => Returned res
            end
      end
  end.

(** [LineClient._send_request] *)
Definition send_request (method : pystr) (params : json)
  : client_result json :=
  match encode_request method params with
  | Err e => Raised e
  | Ok request =>
      match exchange request with
      | Err e => Raised e
      | Ok response_data => check_response response_data
      end
  end.

(** [result.get(key, default)] on what [_send_request] returned. *)
Definition get_from (r : client_result json) (key : string) (default : json)
  : client_result json :=
  match r with
  | Returned res =>
      match py_get res (py key) default with
      | Ok v => Returned v
      | Err e => Raised e
      end
  | ServerError error => ServerError error
  | Raised e => Raised e
  end.

(** [LineClient.load] *)
Definition client_load (file_path : json) : client_result json :=
  get_from (send_request (py "load") (JDict [(py "file_path", file_path)]))
    "lines_read" (JInt 0).

(** [LineClient.sample] *)
Definition client_sample (n : json) : client_result json :=
  get_from (send_request (py "sample") (JDict [(py "n", n)]))
    "lines" (JList []).
End Client.

(** The server as the peer of one call of the client: request number [i]
    of a session, on the store [cache], the request arriving in one read
    and the response in one read. *)
Definition served (server : PyRuntime) (i : nat) (cache : ThreadSafeCache)
  : list byte -> result (list byte) :=
  fun request => (handle_request server i request cache).1.

(** A transport runtime: [example_runtime] with the given outcomes of the
    first and of the second [sendall] of every request. *)
Definition lossy_runtime (first second : option exn) : PyRuntime :=
  {| rt_int_of_str := rt_int_of_str example_runtime;
     rt_int_of_float := rt_int_of_float example_runtime;
     rt_float_truth := rt_float_truth example_runtime;
     rt_repr := rt_repr example_runtime;
     rt_readlines := rt_readlines example_runtime;
     rt_picks := rt_picks example_runtime;
     rt_send_error := fun _ attempt =>
       match attempt with
       | O => first
       | S _ => second
       end |}.

(* ================================================================== *)
(** * cli.py : main *)

(** The parsed command line: the command, [--file] and [--num]. *)
Inductive cli_command : Type := CmdLoad | CmdSample.

Record cli_args : Type := mkArgs {
  arg_command : cli_command;
  arg_file : option pystr;
  arg_num : option Z
}.

(** What a run of the program leaves: the lines printed on the standard
    output and on the standard error, and the exit status. *)
Record cli_exit : Type := mkExit {
  stdout : list pystr;
  stderr : list pystr;
  status : Z
}.

(** [len(v)] *)
Definition py_len (v : json) : result Z :=
  match v with
  | JStr s => Ok (len s)
  | JList l => Ok (len l)
  | JDict kvs => Ok (len kvs)
  | JNull | JBool _ | JInt _ | JFloat _ =>
      raise TypeError
        (py "object of type '" ++ type_name v ++ py "' has no len()")
  end.

(** The items a [for] loop over [v] visits: the items of a list, the
    characters of a string, the keys of a dict. *)
Definition py_iter (v : json) : result (list json) :=
  match v with
  | JList l => Ok l
  | JStr s => Ok (map (fun c => JStr [c]) s)
  | JDict kvs => Ok (map (fun kv => JStr kv.1) kvs)
  | JNull | JBool _ | JInt _ | JFloat _ =>
      raise TypeError (py "'" ++ type_name v ++ py "' object is not iterable")
  end.

Section Cli.
(** The interpreter of the program. *)
Variable rt : PyRuntime.

(** [LineClient()]: the connection to the socket of the server. *)
Variable connect : result unit.

(** One request and its response over the connection. *)
Variable exchange : list byte -> result (list byte).

(** A message printed alone on the standard output before [sys.exit(1)]. *)
Definition usage_exit (msg : string) : cli_exit :=
  {| stdout := [py msg]; stderr := []; status := 1 |}.

(** The [except Exception] clause: the exception on the standard error,
    after what was printed so far, and [sys.exit(1)]. *)
Definition error_exit (printed : list pystr) (msg : pystr) : cli_exit :=
  {| stdout := printed; stderr := [py "Error: " ++ msg]; status := 1 |}.

(** [str(e)] for the exception a call of the client ended in. *)
Definition after_call (r : client_result json) (k : json -> cli_exit)
  : cli_exit :=
  match r with
  | Returned v => k v
  | ServerError error => error_exit [] (py_str rt error)
  | Raised e => error_exit [] (exn_str e)
  end.

(** The lines of the loop over [enumerate(lines, 1)]. *)
Definition numbered (items : list json) : list pystr :=
  imap (fun i line => str_of_int (Z.of_nat i + 1) ++ py ": " ++ py_str rt line)
       items.

(** [main], after the parsing of the command line. *)
Definition cli_main (args : cli_args) : cli_exit :=
  match connect with
  | Err e => error_exit [] (exn_str e)
  | Ok _ =>
      match arg_command args with
      | CmdLoad =>
          match arg_file args with
          | None | Some [] =>
              usage_exit "Error: --file required for load command"
          | Some path =>
              after_call (client_load rt exchange (JStr path))
                (fun count =>
                   {| stdout := [py "Loaded " ++ py_str rt count
                                 ++ py " lines"];
                      stderr := []; status := 0 |})
          end
      | CmdSample =>
          match arg_num args with
          | None | Some 0 =>
              usage_exit "Error: --num required for sample command"
          | Some n =>
              after_call (client_sample rt exchange (JInt n))
                (fun lines =>
                   match py_len lines with
                   | Err e => error_exit [] (exn_str e)
                   | Ok count =>
                       let header := py "Sampled " ++ str_of_int count
                                     ++ py " lines:" in
                       match py_iter lines with
                       | Err e => error_exit [header] (exn_str e)
                       | Ok items =>
                           {| stdout := header :: numbered items;
                              stderr := []; status := 0 |}
                       end
                   end)
          end
      end
  end.
End Cli.

(* ================================================================== *)
(** * One read of a stream *)

(** [socket.recv(bufsize)] on a stream on which [arrived] bytes of [sent]
    have arrived when the call returns: the first bytes of [sent], at most
    [bufsize] of them. *)
Definition recv (bufsize arrived : Z) (sent : list byte) : list byte :=
  take (Z.to_nat (Z.min bufsize arrived)) sent.

(** The read returns all of [sent]: it fits the buffer of the client and
    has arrived in full. *)
Definition whole_read (arrived : Z) (sent : list byte) : Prop :=
  len sent <= MAX_MESSAGE_SIZE /\ len sent <= arrived.

(** The server as the peer of one call of the client over the stream: the
    request arrives in one read of the server; of the response, the single
    [recv(MAX_MESSAGE_SIZE)] of [_send_request] returns what has arrived. *)
Definition served_stream (server : PyRuntime) (i : nat)
    (cache : ThreadSafeCache) (arrived : Z)
  : list byte -> result (list byte) :=
  fun request =>
    match served server i cache request with
    | Ok response => Ok (recv MAX_MESSAGE_SIZE arrived response)
    | Err e => Err e
    end.

(** The Result response of the server to request number [i], a sample
    request for [n], on the store [cache]. *)
Definition sample_response (server : PyRuntime) (i : nat)
    (cache : ThreadSafeCache) (n : Z) : list byte :=
  result_response
    (JDict [(py "lines",
             JList (map JStr (sample (rt_picks server i) n cache).1))]).

(* ================================================================== *)
(** * Properties of the line store *)

Section StoreFacts.
Implicit Types (c : ThreadSafeCache) (lines : list pystr) (n : Z).

Lemma len_app {A} (l k : list A) : len (l ++ k) = len l + len k.
Proof. unfold len. rewrite length_app. lia. Qed.

Lemma len_nonneg {A} (l : list A) : 0 <= len l.
Proof. unfold len. lia. Qed.

Lemma random_sample_length {A} picks (pop : list A) k :
  (length (random_sample picks pop k) <= k)%nat.
Proof.
  unfold random_sample.
  assert (Hlen : forall l : list nat,
             (length (omap (fun i => pop !! i) l) <= length l)%nat).
  { induction l as [|i l IH]; [done|]. cbn.
    destruct (pop !! i); cbn in *; lia. }
  etrans; [apply Hlen|]. rewrite length_take. lia.
Qed.

Lemma random_sample_elem {A} picks (pop : list A) k x :
  x ∈ random_sample picks pop k -> x ∈ pop.
Proof.
  unfold random_sample. rewrite list_elem_of_omap.
  intros (i & _ & Hi). by eapply list_elem_of_lookup_2.
Qed.

(** Under the library's contract the draw has exactly [k] elements. *)
Lemma random_sample_exact {A} picks (pop : list A) k :
  is_random_sample picks (length pop) k ->
  length (random_sample picks pop k) = k.
Proof.
  intros (_ & Hlt & Hk). unfold random_sample.
  rewrite firstn_all2 by lia. subst k.
  induction Hlt as [|i l Hi _ IH]; [done|]. cbn.
  destruct (lookup_lt_is_Some_2 pop i Hi) as [x ->]. cbn in *. by rewrite IH.
Qed.

Lemma sample_guard picks n c :
  available_lines c = [] \/ n <= 0 -> sample picks n c = ([], c).
Proof.
  intros H. unfold sample.
  destruct H as [H|H].
  - by rewrite bool_decide_eq_true_2.
  - apply Z.leb_le in H. rewrite H. by rewrite orb_true_r.
Qed.

Lemma sample_total picks n c :
  total_lines_loaded (sample picks n c).2 = total_lines_loaded c.
Proof. unfold sample. by destruct (_ || _). Qed.

Lemma sample_sublist picks n c :
  available_lines (sample picks n c).2 `sublist_of` available_lines c.
Proof.
  unfold sample. destruct (_ || _); simpl; [done|]. apply sublist_filter.
Qed.
Lemma random_sample_NoDup {A} picks (pop : list A) k :
  NoDup pop -> NoDup picks -> NoDup (random_sample picks pop k).
Proof.
  intros Hpop Hpicks. unfold random_sample.
  assert (Hk : NoDup (take k picks)).
  { eapply sublist_NoDup; [done | apply sublist_take]. }
  induction Hk as [|i l Hi Hl IH]; [apply NoDup_nil; done|]. cbn.
  destruct (pop !! i) as [x|] eqn:E; cbn; [|done].
  apply NoDup_cons. split; [|done].
  rewrite list_elem_of_omap. intros (j & Hj & Ej).
  by rewrite (NoDup_lookup pop i j x Hpop E Ej) in Hi.
Qed.

(** With valid positions drawn, [sample] returns [min(n, k)] lines. *)
Lemma sample_count picks n c :
  0 <= n -> picks_ok picks n c ->
  len (sample picks n c).1 = Z.min n (size c).
Proof.
  intros Hn Hp. unfold sample, size.
  destruct (bool_decide_reflect (available_lines c = [])) as [E|E]; cbn.
  { rewrite E. unfold len in *. cbn in *. lia. }
  destruct (Z.leb_spec n 0); cbn; [unfold len; cbn; lia|].
  unfold len. rewrite random_sample_exact by done.
  rewrite Z2Nat.id; [done|]. pose proof (len_nonneg (available_lines c)).
  unfold len in *. lia.
Qed.

(** Where the available lines are pairwise distinct, [sample] leaves
    [k - min(n, k)] of them. *)
Lemma sample_distinct_size picks n c :
  0 <= n -> NoDup (available_lines c) -> picks_ok picks n c ->
  size (sample picks n c).2 = size c - Z.min n (size c).
Proof.
  intros Hn Hnd Hp. pose proof (sample_count picks n c Hn Hp) as Hcount.
  unfold sample, size in *.
  destruct (bool_decide_reflect (available_lines c = [])) as [E|E]; cbn in *.
  { rewrite E. unfold len in *. cbn in *. lia. }
  destruct (Z.leb_spec n 0); cbn in *; [unfold len in *; cbn in *; lia|].
  set (l := available_lines c) in *.
  set (sampled := random_sample picks l (Z.to_nat (Z.min n (len l)))) in *.
  pose proof (filter_app_complement (fun line => line ∉ (list_to_set sampled : gset pystr)) l) as Hperm.
  apply Permutation_length in Hperm. rewrite length_app in Hperm.
  assert (Hin : filter (fun line : pystr => ¬ (line ∉ (list_to_set sampled : gset pystr))) l ≡ₚ sampled).
  { apply NoDup_Permutation.
    - by apply NoDup_filter.
    - destruct Hp as (Hpicks & _). by apply random_sample_NoDup.
    - intros x. rewrite list_elem_of_filter, elem_of_list_to_set. split.
      + intros [Hx _]. by apply dec_stable.
      + intros Hx. split; [tauto|]. by eapply random_sample_elem. }
  apply Permutation_length in Hin. unfold len in *. lia.
Qed.
End StoreFacts.

(** C1, on a store with duplicate content: with two lines of equal content
    available, [sample(1)] returns one line and leaves [size() = 0], not
    [2 - min(1, 2) = 1]. *)
Theorem C1_sample_size_with_duplicates :
  let c := mkCache [py "a"; py "a"] 2 in
  let r := sample [0%nat] 1 c in
  picks_ok [0%nat] 1 c /\
  len r.1 = Z.min 1 (size c) /\
  size r.2 = 0 /\
  size r.2 <> size c - Z.min 1 (size c).
Proof.
  split.
  - repeat split; [apply NoDup_singleton | repeat constructor].
  - by vm_compute.
Qed.

(** C2, on a store with duplicate content: [sample(1)] selects the instance at
    position 0 of ["x"; "y"; "x"]; the rebuild drops every line whose
    content is in the sampled set, so the unselected instance at position 2
    is removed too and only ["y"] remains. *)
Theorem C2_sample_removes_unselected_duplicate :
  let c := mkCache [py "x"; py "y"; py "x"] 3 in
  let r := sample [0%nat] 1 c in
  picks_ok [0%nat] 1 c /\
  r.1 = [py "x"] /\
  available_lines c !! 2%nat = Some (py "x") /\
  available_lines r.2 = [py "y"] /\
  py "x" ∉ available_lines r.2.
Proof.
  split; [|split; [|split; [|split]]].
  - repeat split; [apply NoDup_singleton | repeat constructor].
  - by vm_compute.
  - done.
  - by vm_compute.
  - assert (E : available_lines
                  (sample [0%nat] 1 (mkCache [py "x"; py "y"; py "x"] 3)).2
                = [py "y"]) by (by vm_compute).
    cbv zeta. rewrite E. intros H%list_elem_of_singleton. by vm_compute in H.
Qed.

(** C6: [add_lines] appends the [m] given lines in order and with their
    multiplicity, adds [m] to [total_lines_loaded], returns [m], and
    [size()] grows by [m]. *)
Theorem C6_add_lines (lines : list pystr) (c : ThreadSafeCache) :
  let m := len lines in
  let r := add_lines lines c in
  r.1 = m /\
  available_lines r.2 = available_lines c ++ lines /\
  (forall line : pystr,
      multiplicity line (available_lines r.2) =
      (multiplicity line (available_lines c) + multiplicity line lines)%nat) /\
  total_lines_loaded r.2 = total_lines_loaded c + m /\
  size r.2 = size c + m.
Proof.
  simpl. repeat split.
  - intros line. unfold multiplicity. by rewrite filter_app, length_app.
  - unfold size. simpl. apply len_app.
Qed.

(** C9: [|available| <= totalLoaded] holds initially and after every
    operation; [totalLoaded] never decreases; [available] gets longer only
    by [add_lines] and shorter only by [sample]. *)
Theorem C9_store_invariant (op : store_op) (c : ThreadSafeCache)
    (Hinv : store_inv c) :
  store_inv cache_init /\
  store_inv (run_op op c) /\
  total_lines_loaded c <= total_lines_loaded (run_op op c) /\
  (size c < size (run_op op c) -> exists lines, op = OpAddLines lines) /\
  (size (run_op op c) < size c -> exists picks n, op = OpSample picks n).
Proof.
  unfold store_inv, size in *. split; [done|].
  destruct op as [lines|picks n| |]; simpl.
  - rewrite len_app. pose proof (len_nonneg lines).
    repeat split; [lia | lia | eauto | lia].
  - rewrite sample_total.
    pose proof (sublist_length _ _ (sample_sublist picks n c)) as Hl.
    unfold len in *.
    repeat split; [lia | lia | lia | eauto].
  - repeat split; [done | lia | lia | lia].
  - repeat split; [done | lia | lia | lia].
Qed.

Lemma C9_store_invariant_witness :
  store_inv (mkCache [py "a"] 1) /\
  store_inv (run_op (OpSample [0%nat] 1) (mkCache [py "a"] 1)).
Proof.
  assert (H : store_inv (mkCache [py "a"] 1)) by (by vm_compute).
  split; [exact H|].
  exact (proj1 (proj2 (C9_store_invariant (OpSample [0%nat] 1) _ H))).
Defined.

(** C10: [sample] never fabricates lines: each returned line was available
    before the call, what stays available is a sub-multiset of what was,
    and at most [max(n, 0)] lines are returned. *)
Theorem C10_sample_no_fabrication (picks : list nat) (n : Z)
    (c : ThreadSafeCache) :
  let r := sample picks n c in
  (forall line, line ∈ r.1 -> line ∈ available_lines c) /\
  available_lines r.2 ⊆+ available_lines c /\
  len r.1 <= Z.max n 0.
Proof.
  cbv zeta. split; [|split].
  - unfold sample. destruct (_ || _); simpl.
    + intros line H. by apply elem_of_nil in H.
    + intros line. apply random_sample_elem.
  - apply sublist_submseteq, sample_sublist.
  - unfold sample. destruct (_ || _) eqn:G; simpl.
    + unfold len. simpl. lia.
    + pose proof (random_sample_length picks (available_lines c)
                    (Z.to_nat (Z.min n (len (available_lines c))))) as Hl.
      apply orb_false_iff in G as [_ G]. apply Z.leb_gt in G.
      unfold len in *. lia.
Qed.

(* ================================================================== *)
(** * The JSON text is ASCII, and ASCII passes the codec unchanged *)

Arguments encode_str : simpl never.
Arguments str_of_int : simpl never.
Arguments py : simpl never.

Ltac ascii_items :=
  repeat (apply List.Forall_cons; [unfold is_ascii; lia|]);
  try apply List.Forall_nil.

Section AsciiFacts.
Implicit Types (c : Z) (s : pystr).

Lemma Z_of_byte_of_Z c : 0 <= c < 256 -> Z_of_byte (byte_of_Z c) = c.
Proof.
  intros Hc. unfold Z_of_byte, byte_of_Z.
  destruct (Byte.of_N (Z.to_N c)) as [b|] eqn:E.
  - apply Byte.to_of_N in E. rewrite E. lia.
  - apply Byte.of_N_None_iff in E. lia.
Qed.

Lemma str_encode_ascii s :
  Forall is_ascii s -> str_encode s = Ok (ascii_bytes s).
Proof.
  unfold ascii_bytes.
  induction 1 as [|c s Hc _ IH]; [done|]. simpl.
  unfold utf8_char. unfold is_ascii in Hc.
  destruct (Z.ltb_spec c 0); [lia|].
  destruct (Z.ltb_spec c 128); [|lia].
  by rewrite IH.
Qed.

Lemma bytes_decode_ascii s :
  Forall is_ascii s -> bytes_decode (ascii_bytes s) = Ok s.
Proof.
  unfold ascii_bytes.
  induction 1 as [|c s Hc _ IH]; [done|]. simpl.
  unfold is_ascii in Hc. rewrite Z_of_byte_of_Z by lia.
  destruct (Z.ltb_spec c 128); [|lia].
  by rewrite IH.
Qed.

Lemma py_ascii (lit : string) :
  forallb (fun c => (0 <=? c) && (c <? 128)) (py lit) = true ->
  Forall is_ascii (py lit).
Proof.
  intros H. apply Forall_forall. intros c Hc.
  rewrite forallb_forall in H. apply list_elem_of_In, H in Hc.
  unfold is_ascii. lia.
Qed.

Lemma digits_of_ascii fuel n acc :
  Forall is_ascii acc -> Forall is_ascii (digits_of fuel n acc).
Proof.
  revert n acc. induction fuel as [|fuel IH]; intros n acc Hacc; simpl.
  - apply List.Forall_cons; [|done]. unfold is_ascii.
    pose proof (Z.mod_pos_bound n 10). lia.
  - assert (Forall is_ascii ((48 + n mod 10) :: acc)).
    { apply List.Forall_cons; [|done]. unfold is_ascii.
      pose proof (Z.mod_pos_bound n 10). lia. }
    destruct (n <? 10); [done|]. by apply IH.
Qed.

Lemma str_of_int_ascii z : Forall is_ascii (str_of_int z).
Proof.
  unfold str_of_int. destruct (z <? 0).
  - ascii_items. by apply digits_of_ascii.
  - by apply digits_of_ascii.
Qed.

Lemma hex_digit_ascii d : 0 <= d < 16 -> is_ascii (hex_digit d).
Proof. unfold hex_digit, is_ascii. destruct (d <? 10); lia. Qed.

Lemma u_escape_ascii n : Forall is_ascii (u_escape n).
Proof.
  unfold u_escape, hex4.
  do 2 (apply List.Forall_cons; [unfold is_ascii; lia|]).
  repeat (apply List.Forall_cons;
          [apply hex_digit_ascii, Z.mod_pos_bound; lia|]).
  apply List.Forall_nil.
Qed.

Lemma escape_char_ascii c : Forall is_ascii (escape_char c).
Proof.
  unfold escape_char.
  do 7 (case_match; [by ascii_items|]).
  destruct (_ && _) eqn:E.
  { rewrite andb_true_iff, !Z.leb_le in E. ascii_items. }
  case_match; [apply u_escape_ascii|].
  apply Forall_app. split; apply u_escape_ascii.
Qed.

Lemma encode_str_ascii s : Forall is_ascii (encode_str s).
Proof.
  unfold encode_str. ascii_items.
  apply Forall_app. split; [|by ascii_items].
  induction s as [|c s IH]; simpl; [done|].
  apply Forall_app. split; [apply escape_char_ascii | done].
Qed.

Lemma join_items_ascii items :
  Forall (Forall is_ascii) items -> Forall is_ascii (join_items items).
Proof.
  induction 1 as [|x items Hx Hitems IH]; [done|]. simpl.
  destruct items as [|y items]; [done|].
  apply Forall_app. split; [done|]. by ascii_items.
Qed.

Lemma json_dumps_ascii v :
  float_free v = true -> Forall is_ascii (json_dumps v).
Proof.
  induction v as [|[]|z|lit|s|l IH|kvs IH] using json_ind; cbn; intros Hf.
  - by apply py_ascii.
  - by apply py_ascii.
  - by apply py_ascii.
  - apply str_of_int_ascii.
  - done.
  - apply encode_str_ascii.
  - ascii_items.
    apply Forall_app. split; [|by ascii_items].
    apply join_items_ascii. apply Forall_fmap.
    rewrite forallb_forall in Hf. rewrite Forall_forall in IH |- *.
    intros v Hv. apply IH; [done|]. by apply Hf, list_elem_of_In.
  - ascii_items.
    apply Forall_app. split; [|by ascii_items].
    apply join_items_ascii. apply Forall_fmap.
    rewrite forallb_forall in Hf. rewrite Forall_forall in IH |- *.
    intros [k v] Hkv. cbn. apply Forall_app. split.
    + apply encode_str_ascii.
    + ascii_items.
      apply (IH (k, v) Hkv). by apply (Hf (k, v)), list_elem_of_In.
Qed.

(** Encoding a float-free message never raises: the result is the wire
    form of the message. *)
Lemma str_encode_json v :
  float_free v = true -> str_encode (json_dumps v) = Ok (wire v).
Proof. intros H. by apply str_encode_ascii, json_dumps_ascii. Qed.

Lemma encode_response_error msg :
  encode_response JNull (Some msg)
  = Ok (wire (response_message JNull (Some msg))).
Proof. by apply str_encode_json. Qed.

Lemma encode_response_result res :
  float_free res = true ->
  encode_response res None = Ok (wire (response_message res None)).
Proof.
  intros H. apply str_encode_json. simpl. by rewrite H.
Qed.

Lemma encode_request_wire method params :
  float_free params = true ->
  encode_request method params = Ok (wire (request_message method params)).
Proof.
  intros H. apply str_encode_json. simpl. by rewrite H.
Qed.

Lemma decode_wire v :
  float_free v = true -> decode (wire v) = json_loads (json_dumps v).
Proof.
  intros H. unfold decode, wire.
  by rewrite bytes_decode_ascii by by apply json_dumps_ascii.
Qed.
End AsciiFacts.

(* ================================================================== *)
(** * Properties of the session handler *)

Section ServerFacts.
Variable rt : PyRuntime.
Implicit Types (cache : ThreadSafeCache) (data : list byte) (i : nat).

Lemma py_get_not_dict v key d :
  is_dict v = false -> py_get v key d = Err (no_get v).
Proof. by destruct v. Qed.

Lemma eq_str_true v s : eq_str v s = true <-> v = JStr s.
Proof.
  destruct v; simpl; try (split; [done | congruence]).
  rewrite bool_decide_eq_true. split; congruence.
Qed.

Lemma eq_str_false v s : v <> JStr s -> eq_str v s = false.
Proof.
  intros H. destruct (eq_str v s) eqn:E; [|done].
  by apply eq_str_true in E.
Qed.

(** On a request object [dispatch] goes by the method alone. *)
Lemma dispatch_request i data method params cache :
  is_request data method params ->
  dispatch rt i data cache =
    if eq_str method (py "load") then handle_load rt params cache
    else if eq_str method (py "sample")
    then handle_sample rt i params cache
    else (raise ValueError (py "Unknown method: " ++ py_str rt method),
          cache).
Proof.
  intros (kvs & Hdec & Htype & Hmeth & Hpar).
  unfold dispatch. rewrite Hdec. cbn [py_get].
  unfold field in Htype, Hmeth. rewrite Htype, Hmeth, Hpar.
  by rewrite (proj2 (eq_str_true _ _) eq_refl).
Qed.

Lemma bad_request_dispatch i data e cache :
  bad_request rt data e -> dispatch rt i data cache = (Err e, cache).
Proof.
  intros [e' Hdec|v Hdec Hv|kvs Hdec Htype|method params Hreq Hl Hs
         |method params Hreq Hm Hp|ps Hreq Hfp|ps Hreq Hn|ps e' Hreq Hn Hint
         |ps z Hreq Hint Hz].
  - unfold dispatch. by rewrite Hdec.
  - unfold dispatch. rewrite Hdec. by rewrite py_get_not_dict.
  - unfold dispatch. rewrite Hdec. cbn [py_get].
    unfold field in Htype. by rewrite eq_str_false.
  - rewrite (dispatch_request _ _ _ _ _ Hreq).
    by rewrite !eq_str_false.
  - rewrite (dispatch_request _ _ _ _ _ Hreq).
    destruct Hm as [-> | ->]; cbn [eq_str].
    + rewrite bool_decide_eq_true_2 by done.
      unfold handle_load. by rewrite py_get_not_dict.
    + rewrite bool_decide_eq_false_2 by (by vm_compute).
      rewrite bool_decide_eq_true_2 by done.
      unfold handle_sample. by rewrite py_get_not_dict.
  - rewrite (dispatch_request _ _ _ _ _ Hreq). cbn [eq_str].
    rewrite bool_decide_eq_true_2 by done.
    unfold handle_load. cbn [py_get]. unfold field in Hfp. by rewrite Hfp.
  - rewrite (dispatch_request _ _ _ _ _ Hreq). cbn [eq_str].
    rewrite bool_decide_eq_false_2 by (by vm_compute).
    rewrite bool_decide_eq_true_2 by done.
    unfold handle_sample. cbn [py_get]. unfold field in Hn. by rewrite Hn.
  - rewrite (dispatch_request _ _ _ _ _ Hreq). cbn [eq_str].
    rewrite bool_decide_eq_false_2 by (by vm_compute).
    rewrite bool_decide_eq_true_2 by done.
    unfold handle_sample. cbn [py_get]. unfold field in Hn, Hint.
    unfold coerce_n. rewrite Hint.
    destruct (is_ValueError (exn_cls e')), e';
      by destruct (match dict_get ps (py "n") with
                   | Some v => v | None => JNull end).
  - rewrite (dispatch_request _ _ _ _ _ Hreq). cbn [eq_str].
    rewrite bool_decide_eq_false_2 by (by vm_compute).
    rewrite bool_decide_eq_true_2 by done.
    unfold handle_sample. cbn [py_get]. unfold field in Hint.
    unfold coerce_n. rewrite Hint.
    destruct (Z.ltb_spec z 0); [|lia]. cbn.
    destruct (match dict_get ps (py "n") with
              | Some v => v | None => JNull end); done.
Qed.

Lemma handle_load_float_free params cache res cache' :
  handle_load rt params cache = (Ok res, cache') -> float_free res = true.
Proof.
  unfold handle_load. intros H.
  repeat case_match; simplify_eq; done.
Qed.

Lemma float_free_lines (lines : list pystr) :
  forallb float_free (map JStr lines) = true.
Proof. by induction lines. Qed.

Lemma handle_sample_float_free i params cache res cache' :
  handle_sample rt i params cache = (Ok res, cache') ->
  float_free res = true.
Proof.
  unfold handle_sample. intros H.
  repeat case_match; simplify_eq; cbn; by rewrite float_free_lines.
Qed.

Lemma dispatch_float_free i data cache res cache' :
  dispatch rt i data cache = (Ok res, cache') -> float_free res = true.
Proof.
  unfold dispatch. intros H.
  repeat case_match; simplify_eq;
    eauto using handle_load_float_free, handle_sample_float_free.
Qed.

Hypothesis Hsend : reliable_transport rt.

Lemma sendall_ok i attempt response : sendall rt i attempt response = Ok tt.
Proof. unfold sendall. by rewrite Hsend. Qed.

(** A request that raises is answered with the Error response of the
    exception. *)
Lemma handle_request_err i data cache e cache' :
  dispatch rt i data cache = (Err e, cache') ->
  handle_request rt i data cache = (Ok (error_response e), cache').
Proof.
  intros H. unfold handle_request, try_request. rewrite H.
  by rewrite encode_response_error, sendall_ok.
Qed.

(** A request that returns is answered with the Result response. *)
Lemma handle_request_ok i data cache res cache' :
  dispatch rt i data cache = (Ok res, cache') ->
  handle_request rt i data cache = (Ok (result_response res), cache').
Proof.
  intros H. unfold handle_request, try_request. rewrite H.
  rewrite encode_response_result by by eapply dispatch_float_free.
  by rewrite sendall_ok.
Qed.

(** Every request is answered: no exception leaves the inner [try]. *)
Lemma handle_request_sends i data cache :
  exists response, (handle_request rt i data cache).1 = Ok response.
Proof.
  destruct (dispatch rt i data cache) as [[res|e] cache'] eqn:E.
  - rewrite (handle_request_ok _ _ _ _ _ E). eauto.
  - rewrite (handle_request_err _ _ _ _ _ E). eauto.
Qed.

Lemma handle_client_cons i data rest cache :
  data <> [] ->
  exists response,
    (handle_request rt i data cache).1 = Ok response /\
    handle_client rt i (Ok data :: rest) cache =
      (response ::
         (handle_client rt (S i) rest (handle_request rt i data cache).2).1,
       (handle_client rt (S i) rest (handle_request rt i data cache).2).2).
Proof.
  intros Hne. destruct (handle_request_sends i data cache) as [resp Hr].
  exists resp. split; [done|]. cbn [handle_client].
  rewrite bool_decide_eq_false_2 by done.
  destruct (handle_request rt i data cache) as [r c']. cbn in Hr. subst r.
  cbn. by destruct (handle_client rt (S i) rest c').
Qed.

(** The session after a prefix of messages is the session on the rest,
    from the store the prefix leaves. *)
Lemma handle_client_app i pre post cache :
  Forall received pre ->
  handle_client rt i (pre ++ post) cache =
    ((handle_client rt i pre cache).1 ++
     (handle_client rt (i + length pre) post
        (handle_client rt i pre cache).2).1,
     (handle_client rt (i + length pre) post
        (handle_client rt i pre cache).2).2).
Proof.
  intros Hpre. revert i cache.
  induction Hpre as [|r pre (data & -> & Hne) _ IH]; intros i cache.
  - cbn. rewrite Nat.add_0_r.
    by destruct (handle_client rt i post cache).
  - rewrite <- app_comm_cons.
    destruct (handle_client_cons i data (pre ++ post) cache Hne)
      as (r1 & Hr1 & ->).
    destruct (handle_client_cons i data pre cache Hne) as (r2 & Hr2 & ->).
    rewrite IH. cbn [fst snd length].
    replace (i + S (length pre))%nat with (S i + length pre)%nat by lia.
    rewrite Hr1 in Hr2. by simplify_eq.
Qed.

End ServerFacts.



(** C5 as stated does not hold: the sign of [n] is checked after [int(n)],
    and [int] truncates toward zero. The sample request whose [n] is the
    number [-0.5] decodes, [int(-0.5)] is [0], and the handler answers with
    the Result response of [sample(0)], no line, the store unchanged: a
    negative [n] taken as zero. *)
Lemma C5_negative_fraction_sampled_as_zero :
  let cache := mkCache [py "a"; py "b"] 2 in
  let n := JFloat (py "-0.5") in
  let data := ascii_bytes fraction_request in
  let res := JDict [(py "lines", JList [])] in
  decode data = Ok (request_message (py "sample") (JDict [(py "n", n)])) /\
  py_int float_runtime n = Ok 0 /\
  handle_sample float_runtime 0 (JDict [(py "n", n)]) cache = (Ok res, cache) /\
  handle_request float_runtime 0 data cache = (Ok (result_response res), cache).
Proof. cbv zeta. repeat split; by vm_compute. Qed.

(** C5, what holds instead: for a sample request, a missing [n], an [n]
    that [int] rejects and an [n] that [int] turns into a negative integer
    each end in an exception (answered with an Error response) and no line
    is sampled; an [n] that [int] turns into [z >= 0] ends in [sample(z)],
    answered with its lines under the key [lines]. *)
Theorem C5_handle_sample
    (rt : PyRuntime) (i : nat) (data : list byte)
    (ps : list (pystr * json)) (cache : ThreadSafeCache)
    (Hsend : reliable_transport rt)
    (Hreq : is_request data (JStr (py "sample")) (JDict ps)) :
  let n := field ps "n" in
  let raises e :=
    handle_sample rt i (JDict ps) cache = (Err e, cache) /\
    handle_request rt i data cache = (Ok (error_response e), cache) in
  (n = JNull -> raises (mkExn ValueError (py "Missing n parameter"))) /\
  (forall e, n <> JNull -> py_int rt n = Err e ->
     raises (if is_ValueError (exn_cls e)
             then mkExn ValueError (py "n must be an integer") else e)) /\
  (forall z, py_int rt n = Ok z -> z < 0 ->
     raises (mkExn ValueError (py "n must be an integer"))) /\
  (forall z, py_int rt n = Ok z -> 0 <= z ->
     let drawn := sample (rt_picks rt i) z cache in
     let res := JDict [(py "lines", JList (map JStr drawn.1))] in
     handle_sample rt i (JDict ps) cache = (Ok res, drawn.2) /\
     handle_request rt i data cache = (Ok (result_response res), drawn.2)).
Proof.
  cbv zeta.
  assert (Hd : dispatch rt i data cache = handle_sample rt i (JDict ps) cache).
  { rewrite (dispatch_request rt _ _ _ _ _ Hreq). cbn [eq_str].
    rewrite bool_decide_eq_false_2 by (by vm_compute).
    by rewrite bool_decide_eq_true_2. }
  assert (Hbad : forall e, bad_request rt data e ->
            handle_sample rt i (JDict ps) cache = (Err e, cache) /\
            handle_request rt i data cache = (Ok (error_response e), cache)).
  { intros e Hb. pose proof (bad_request_dispatch rt i data e cache Hb) as He.
    split; [by rewrite <- Hd|]. by apply handle_request_err. }
  repeat split.
  - apply Hbad. by eapply missing_n.
  - apply Hbad. by eapply missing_n.
  - apply Hbad. by eapply uncoercible_n.
  - apply Hbad. by eapply uncoercible_n.
  - apply Hbad. by eapply negative_n.
  - apply Hbad. by eapply negative_n.
  - unfold handle_sample. cbn [py_get]. unfold field in H.
    unfold coerce_n. rewrite H. destruct (Z.ltb_spec z 0); [lia|].
    destruct (match dict_get ps (py "n") with
              | Some v => v | None => JNull end); try done;
      by destruct (sample _ _ _).
  - apply handle_request_ok; [done|]. rewrite Hd.
    unfold handle_sample. cbn [py_get]. unfold field in H.
    unfold coerce_n. rewrite H. destruct (Z.ltb_spec z 0); [lia|].
    destruct (match dict_get ps (py "n") with
              | Some v => v | None => JNull end); try done;
      by destruct (sample _ _ _).
Qed.

Lemma C5_witness :
  let cache := mkCache [py "a"; py "b"; py "c"] 3 in
  let request n := wire (request_message (py "sample") (JDict [(py "n", n)])) in
  handle_request example_runtime 0 (request (JInt (-1))) cache
    = (Ok (error_response (mkExn ValueError (py "n must be an integer"))),
       cache) /\
  handle_request example_runtime 0 (request (JStr (py "2"))) cache
    = (Ok (result_response
             (JDict [(py "lines", JList [JStr (py "a"); JStr (py "b")])])),
       mkCache [py "c"] 3).
Proof.
  cbv zeta. split.
  - refine (proj2 (proj1 (proj2 (proj2
      (C5_handle_sample example_runtime 0 _ [(py "n", JInt (-1))] _ _ _)))
      (-1) _ _)).
    + by intros i attempt.
    + eexists. by vm_compute.
    + done.
    + done.
  - refine (proj2 (proj2 (proj2 (proj2
      (C5_handle_sample example_runtime 0 _ [(py "n", JStr (py "2"))]
         (mkCache [py "a"; py "b"; py "c"] 3) _ _)))
      2 _ _)).
    + by intros i attempt.
    + eexists. by vm_compute.
    + done.
    + done.
Defined.

(** C8: a load request whose file cannot be read ends in a [ValueError]
    wrapping the failure; it is answered with an Error response, the store
    keeps its lines and its counter, and the session goes on with the next
    message. *)
Theorem C8_load_read_failure
    (rt : PyRuntime) (i : nat) (data : list byte)
    (ps : list (pystr * json)) (cache : ThreadSafeCache) (e : exn)
    (rest : list (result (list byte)))
    (Hsend : reliable_transport rt)
    (Hdata : data <> [])
    (Hreq : is_request data (JStr (py "load")) (JDict ps))
    (Hpath : truthy rt (field ps "file_path") = true)
    (Hread : rt_readlines rt (field ps "file_path") = Err e) :
  let failure := mkExn ValueError (py "Error reading file: " ++ exn_str e) in
  handle_load rt (JDict ps) cache = (Err failure, cache) /\
  handle_request rt i data cache = (Ok (error_response failure), cache) /\
  handle_client rt i (Ok data :: rest) cache
    = (error_response failure :: (handle_client rt (S i) rest cache).1,
       (handle_client rt (S i) rest cache).2).
Proof.
  cbv zeta.
  assert (Hl : handle_load rt (JDict ps) cache
               = (Err (mkExn ValueError
                         (py "Error reading file: " ++ exn_str e)), cache)).
  { unfold handle_load. cbn [py_get]. unfold field in Hpath, Hread.
    by rewrite Hpath, Hread. }
  assert (Hr : handle_request rt i data cache
               = (Ok (error_response
                        (mkExn ValueError
                           (py "Error reading file: " ++ exn_str e))), cache)).
  { apply handle_request_err; [done|].
    rewrite (dispatch_request rt _ _ _ _ _ Hreq). cbn [eq_str].
    by rewrite bool_decide_eq_true_2. }
  repeat split; [done | done |].
  destruct (handle_client_cons rt Hsend i data rest cache Hdata)
    as (r & Hs & ->).
  rewrite Hr in Hs |- *. cbn in Hs. by simplify_eq.
Qed.

Lemma C8_witness :
  let cache := mkCache [py "a"] 1 in
  let request :=
    wire (request_message (py "load")
            (JDict [(py "file_path", JStr (py "missing.txt"))])) in
  handle_request example_runtime 0 request cache
  = (Ok (error_response
           (mkExn ValueError
              (py "Error reading file: [Errno 2] No such file or directory"))),
     cache).
Proof.
  cbv zeta.
  refine (proj1 (proj2
    (C8_load_read_failure example_runtime 0 _
       [(py "file_path", JStr (py "missing.txt"))] (mkCache [py "a"] 1)
       (mkExn OSError (py "[Errno 2] No such file or directory")) []
       _ _ _ _ _))).
  - by intros i attempt.
  - by vm_compute.
  - eexists. by vm_compute.
  - done.
  - done.
Defined.

(* ================================================================== *)
(** * Decoding what was encoded *)

Section StringRoundTrip.
Implicit Types (c d n : Z) (s tail rest : pystr).

Lemma hex_val_hex_digit d : 0 <= d < 16 -> hex_val (hex_digit d) = Some d.
Proof.
  intros Hd. unfold hex_digit, hex_val.
  destruct (Z.ltb_spec d 10).
  - destruct (Z.leb_spec 48 (48 + d)); [|lia].
    destruct (Z.leb_spec (48 + d) 57); [|lia].
    cbn. f_equal. lia.
  - destruct (Z.leb_spec 48 (87 + d)); [|lia].
    destruct (Z.leb_spec (87 + d) 57); [lia|].
    destruct (Z.leb_spec 97 (87 + d)); [|lia].
    destruct (Z.leb_spec (87 + d) 102); [|lia].
    cbn. f_equal. lia.
Qed.

Lemma hex4_val_hex4 n :
  0 <= n < 65536 ->
  hex4_val (hex_digit (n / 4096 mod 16)) (hex_digit (n / 256 mod 16))
           (hex_digit (n / 16 mod 16)) (hex_digit (n mod 16)) = Some n.
Proof.
  intros Hn. unfold hex4_val.
  rewrite !hex_val_hex_digit by (apply Z.mod_pos_bound; lia).
  f_equal. Z.div_mod_to_equations. lia.
Qed.

(** A [\uXXXX] escape that is not the first half of a pair. *)
Lemma scanstring_u a b c1 d u tail :
  hex4_val a b c1 d = Some u ->
  is_high_surrogate u && low_escape_follows tail = false ->
  tail <> [] ->
  scanstring (92 :: 117 :: a :: b :: c1 :: d :: tail)
  = cons_char u (scanstring tail).
Proof.
  intros Hu Hhi Ht. destruct tail as [|t0 tail]; [done|].
  cbn [scanstring]. cbn [Z.eqb Pos.eqb]. rewrite Hu.
  destruct tail as [|t1 [|t2 [|t3 [|t4 [|t5 [|t6 tail]]]]]]; try done.
  cbn [low_escape_follows] in Hhi.
  destruct (is_high_surrogate u); [|done]. cbn [andb] in *.
  destruct (t0 =? 92); [|done]. destruct (t1 =? 117); [|done].
  cbn [andb] in *. destruct (hex4_val t2 t3 t4 t5); [|done].
  by rewrite Hhi.
Qed.

(** A high surrogate escape followed by a low surrogate escape. *)
Lemma scanstring_pair a b c1 d a2 b2 c2 d2 hi lo tail :
  hex4_val a b c1 d = Some hi ->
  is_high_surrogate hi = true ->
  hex4_val a2 b2 c2 d2 = Some lo ->
  is_low_surrogate lo = true ->
  tail <> [] ->
  scanstring (92 :: 117 :: a :: b :: c1 :: d
              :: 92 :: 117 :: a2 :: b2 :: c2 :: d2 :: tail)
  = cons_char (join_surrogates hi lo) (scanstring tail).
Proof.
  intros Hhi Hh Hlo Hl Ht. destruct tail as [|t0 tail]; [done|].
  cbn [scanstring]. cbn [Z.eqb Pos.eqb]. rewrite Hhi, Hh. cbn [andb].
  by rewrite Hlo, Hl.
Qed.

Lemma low_escape_follows_other c tail :
  (c =? 92) = false -> low_escape_follows (c :: tail) = false.
Proof.
  intros Hc. cbn [low_escape_follows]. rewrite Hc.
  by destruct tail as [|? [|? [|? [|? [|? [|? ?]]]]]].
Qed.

Lemma low_escape_follows_short e tail :
  (e =? 117) = false -> low_escape_follows (92 :: e :: tail) = false.
Proof.
  intros He. cbn [low_escape_follows]. rewrite He.
  by destruct tail as [|? [|? [|? [|? [|? ?]]]]].
Qed.

Lemma low_escape_follows_u n tail :
  0 <= n < 65536 -> is_low_surrogate n = false ->
  low_escape_follows (u_escape n ++ tail) = false.
Proof.
  intros Hn Hlow. unfold u_escape, hex4. cbn [app low_escape_follows].
  destruct tail; [done|]. cbn [Z.eqb Pos.eqb andb].
  by rewrite hex4_val_hex4, Hlow.
Qed.

(** The escape of a character that is not a low surrogate does not start
    like the escape of one. *)
Lemma low_escape_follows_escape_char c tail :
  is_code_point c = true -> is_low_surrogate c = false ->
  low_escape_follows (escape_char c ++ tail) = false.
Proof.
  unfold is_code_point. rewrite andb_true_iff, !Z.leb_le.
  intros Hc Hlow. unfold escape_char.
  do 7 (match goal with
        | |- context [c =? ?k] =>
            destruct (Z.eqb_spec c k) as [->|?];
              [by apply low_escape_follows_short|]
        end).
  destruct ((32 <=? c) && (c <=? 126)) eqn:Hprint.
  { apply low_escape_follows_other. lia. }
  destruct (Z.ltb_spec c 65536).
  - apply low_escape_follows_u; [lia | done].
  - rewrite <- app_assoc. apply low_escape_follows_u.
    + pose proof (Z.mod_pos_bound ((c - 65536) / 1024) 1024). lia.
    + pose proof (Z.mod_pos_bound ((c - 65536) / 1024) 1024).
      unfold is_low_surrogate. lia.
Qed.

(** One escaped character is read back as the character, unless it is a
    high surrogate before the escape of a low one. *)
Lemma scanstring_escape_char c tail :
  is_code_point c = true ->
  is_high_surrogate c && low_escape_follows tail = false ->
  tail <> [] ->
  scanstring (escape_char c ++ tail) = cons_char c (scanstring tail).
Proof.
  unfold is_code_point. rewrite andb_true_iff, !Z.leb_le.
  intros Hc Hpair Ht. unfold escape_char.
  do 7 (match goal with
        | |- context [c =? ?k] =>
            destruct (Z.eqb_spec c k) as [->|?]; [done|]
        end).
  destruct ((32 <=? c) && (c <=? 126)) eqn:Hprint.
  { cbn [app scanstring].
    destruct (Z.eqb_spec c 34); [done|].
    destruct (Z.eqb_spec c 92); [done|].
    destruct (Z.leb_spec c 31); [lia|]. done. }
  destruct (Z.ltb_spec c 65536).
  - unfold u_escape, hex4. cbn [app].
    apply scanstring_u; [apply hex4_val_hex4; lia | done | done].
  - unfold u_escape, hex4. cbn [app].
    set (v := c - 65536).
    assert (0 <= v < 1048576) by lia.
    assert (0 <= v / 1024 mod 1024 < 1024) by (apply Z.mod_pos_bound; lia).
    assert (0 <= v mod 1024 < 1024) by (apply Z.mod_pos_bound; lia).
    rewrite (scanstring_pair _ _ _ _ _ _ _ _
               (55296 + v / 1024 mod 1024) (56320 + v mod 1024)).
    + f_equal. unfold join_surrogates.
      Z.div_mod_to_equations. lia.
    + apply hex4_val_hex4. lia.
    + unfold is_high_surrogate. lia.
    + apply hex4_val_hex4. lia.
    + unfold is_low_surrogate. lia.
    + done.
Qed.

(** An encoded string is read back as the string. *)
Lemma scanstring_encode s rest :
  text s = true ->
  scanstring (concat (map escape_char s) ++ 34 :: rest) = Ok (s, rest).
Proof.
  induction s as [|c s IH]; intros Hs; [done|].
  cbn [text] in Hs. apply andb_true_iff in Hs as [Hs Hrest].
  apply andb_true_iff in Hs as [Hc Hpair]. apply negb_true_iff in Hpair.
  cbn [map concat]. rewrite <- app_assoc.
  rewrite scanstring_escape_char; [by rewrite IH | done | | by destruct (concat _)].
  destruct (is_high_surrogate c); [|done]. cbn [andb] in *.
  destruct s as [|d s]; [by apply low_escape_follows_other|].
  cbn [map concat]. rewrite <- app_assoc.
  apply low_escape_follows_escape_char; [|done].
  cbn [text] in Hrest. by destruct (is_code_point d).
Qed.

Lemma scan_once_str fuel s rest :
  text s = true ->
  scan_once (S fuel) (encode_str s ++ rest) = Ok (JStr s, rest).
Proof.
  intros Hs. unfold encode_str. cbn [app scan_once]. cbn [Z.eqb Pos.eqb].
  rewrite <- app_assoc. cbn [app]. by rewrite scanstring_encode.
Qed.
End StringRoundTrip.

Section NumberRoundTrip.
Implicit Types (c d n z : Z) (ds s rest : pystr).

Lemma int_of_digits_snoc ds d :
  int_of_digits (ds ++ [d]) = int_of_digits ds * 10 + (d - 48).
Proof. unfold int_of_digits. by rewrite fold_left_app. Qed.

(** The digits of [n >= 0]: not empty, all digits, no leading zero unless
    [n = 0], and their value is [n]. *)
Lemma digits_of_spec fuel n acc :
  0 <= n -> Z.log2 n <= Z.of_nat fuel ->
  exists c ds,
    digits_of fuel n acc = (c :: ds) ++ acc /\
    Forall (fun d => is_digit d = true) (c :: ds) /\
    int_of_digits (c :: ds) = n /\
    (if n =? 0 then c = 48 /\ ds = [] else 49 <= c).
Proof.
  revert n acc. induction fuel as [|fuel IH]; intros n acc Hn Hlog.
  - assert (n < 2).
    { destruct (Z.eq_dec n 0) as [->|]; [lia|].
      pose proof (Z.log2_spec n ltac:(lia)) as [_ Hhi].
      pose proof (Z.log2_nonneg n).
      replace (Z.log2 n) with 0 in Hhi by lia. cbn in Hhi. lia. }
    exists (48 + n mod 10), []. cbn [digits_of app].
    assert (n = 0 \/ n = 1) as [-> | ->] by lia;
      (split; [done|]; split; [by apply List.Forall_cons|];
       split; [done|]; cbn; done).
  - cbn [digits_of]. destruct (Z.ltb_spec n 10).
    + exists (48 + n mod 10), []. cbn [app].
      rewrite Z.mod_small by lia. split; [done|]. split.
      { apply List.Forall_cons; [unfold is_digit; lia|done]. }
      split; [unfold int_of_digits; cbn; lia|].
      destruct (Z.eqb_spec n 0); [split; [lia|done] | lia].
    + assert (Hdiv : 0 < n / 10) by (Z.div_mod_to_equations; lia).
      destruct (IH (n / 10) ((48 + n mod 10) :: acc)) as (c & ds & E & Hd & Hv & Hc).
      { lia. }
      { assert (Z.log2 (n / 10) < Z.log2 n); [|lia].
        apply Z.log2_lt_pow2; [lia|].
        assert (n / 10 < 2 ^ Z.log2 n); [|done].
        pose proof (Z.log2_spec n ltac:(lia)) as [Hlo Hhi].
        replace (2 ^ Z.succ (Z.log2 n)) with (2 * 2 ^ Z.log2 n) in Hhi
          by (rewrite Z.pow_succ_r; [done | apply Z.log2_nonneg]).
        Z.div_mod_to_equations. lia. }
      exists c, (ds ++ [48 + n mod 10]).
      rewrite E. split; [cbn [app]; f_equal; by rewrite <- app_assoc|].
      pose proof (Z.mod_pos_bound n 10 ltac:(lia)).
      split.
      { rewrite app_comm_cons. apply Forall_app. split; [done|].
        apply List.Forall_cons; [unfold is_digit; lia|done]. }
      split.
      { rewrite app_comm_cons, int_of_digits_snoc, Hv.
        Z.div_mod_to_equations. lia. }
      destruct (Z.eqb_spec (n / 10) 0); [lia|].
      by destruct (Z.eqb_spec n 0); [lia|].
Qed.

Lemma span_digits_app ds rest :
  Forall (fun d => is_digit d = true) ds ->
  match rest with [] => true | c :: _ => negb (is_digit c) end = true ->
  span_digits (ds ++ rest) = (ds, rest).
Proof.
  intros Hds Hrest. induction Hds as [|d ds Hd _ IH].
  - destruct rest as [|c rest]; [done|]. cbn in *.
    by destruct (is_digit c).
  - cbn [app span_digits]. by rewrite Hd, IH.
Qed.

Lemma ends_number_no_digit rest :
  ends_number rest = true ->
  match rest with [] => true | c :: _ => negb (is_digit c) end = true.
Proof.
  destruct rest as [|c rest]; [done|]. cbn. by destruct (is_digit c).
Qed.

(** After an integer part, text that ends the number adds neither a
    fraction nor an exponent. *)
Lemma match_number_int_part sign ds rest :
  ends_number rest = true ->
  (let '(frac, r2) :=
     match rest with
     | p :: d :: _ =>
         if (p =? 46) && is_digit d
         then let '(fs, r') := span_digits (tail rest) in (46 :: fs, r')
         else ([], rest)
     | _ => ([], rest)
     end in
   let '(expo, r4) :=
     match r2 with
     | e :: r3 =>
         if (e =? 101) || (e =? 69) then
           let '(esign, r3') :=
             match r3 with
             | sg :: r' => if (sg =? 45) || (sg =? 43) then ([sg], r')
                           else ([], r3)
             | [] => ([], r3)
             end in
           match span_digits r3' with
           | ([], _) => ([], r2)
           | (es, r') => (e :: esign ++ es, r')
           end
         else ([], r2)
     | [] => ([], r2)
     end in
   match frac, expo with
   | [], [] => Ok (JInt (if sign is [] then int_of_digits ds
                         else - int_of_digits ds), r4)
   | _, _ => Ok (JFloat (sign ++ ds ++ frac ++ expo), r4)
   end)
  = Ok (JInt (if sign is [] then int_of_digits ds
              else - int_of_digits ds), rest).
Proof.
  intros Hrest. destruct rest as [|p rest]; [done|].
  cbn in Hrest. rewrite negb_true_iff, !orb_false_iff in Hrest.
  destruct Hrest as [[[_ Hp] He1] He2].
  destruct rest as [|d rest].
  - cbn iota beta. by rewrite He1, He2.
  - rewrite Hp. cbn [andb]. cbn iota beta. by rewrite He1, He2.
Qed.

Lemma match_number_str_of_int z rest :
  ends_number rest = true ->
  match_number (str_of_int z ++ rest) = Ok (JInt z, rest).
Proof.
  intros Hrest. unfold str_of_int. destruct (Z.ltb_spec z 0).
  - destruct (digits_of_spec (Z.to_nat (Z.log2 (- z))) (- z) [])
      as (c & ds & -> & Hd & Hv & Hc); [lia | |].
    { rewrite Z2Nat.id; [done | apply Z.log2_nonneg]. }
    destruct (Z.eqb_spec (- z) 0); [lia|].
    apply Forall_cons in Hd as [Hcd Hd]. unfold is_digit in Hcd.
    rewrite app_nil_r. unfold match_number. cbn [app Z.eqb Pos.eqb].
    destruct (Z.leb_spec 49 c); [|lia].
    destruct (Z.leb_spec c 57); [|lia]. cbn [andb].
    rewrite span_digits_app by auto using ends_number_no_digit.
    etrans; [exact (match_number_int_part [45] (c :: ds) rest Hrest)|].
    cbn iota. by rewrite Hv, Z.opp_involutive.
  - destruct (digits_of_spec (Z.to_nat (Z.log2 z)) z [])
      as (c & ds & -> & Hd & Hv & Hc); [lia | |].
    { rewrite Z2Nat.id; [done | apply Z.log2_nonneg]. }
    apply Forall_cons in Hd as [Hcd Hd]. unfold is_digit in Hcd.
    rewrite app_nil_r. unfold match_number. cbn [app].
    destruct (Z.eqb_spec c 45); [lia|].
    destruct (Z.eqb_spec z 0) as [->|Hz].
    + destruct Hc as [-> ->]. cbn [app andb Z.leb Z.compare Pos.compare
                                   Pos.compare_cont Z.eqb Pos.eqb].
      etrans; [exact (match_number_int_part [] [48] rest Hrest)|]. done.
    + destruct (Z.leb_spec 49 c); [|lia].
      destruct (Z.leb_spec c 57); [|lia]. cbn [andb].
      rewrite span_digits_app by auto using ends_number_no_digit.
      etrans; [exact (match_number_int_part [] (c :: ds) rest Hrest)|].
      cbn iota. by rewrite Hv.
Qed.

(** A text that starts like a number is scanned as a number. *)
Lemma scan_once_digit fuel c rest :
  is_digit c = true ->
  scan_once (S fuel) (c :: rest) = match_number (c :: rest).
Proof.
  unfold is_digit. intros Hc.
  assert (c = 48 \/ c = 49 \/ c = 50 \/ c = 51 \/ c = 52 \/ c = 53 \/
          c = 54 \/ c = 55 \/ c = 56 \/ c = 57) as H by lia.
  repeat destruct H as [->|H]; try subst c; reflexivity.
Qed.

Lemma scan_once_minus fuel c rest :
  is_digit c = true ->
  scan_once (S fuel) (45 :: c :: rest) = match_number (45 :: c :: rest).
Proof.
  unfold is_digit. intros Hc.
  assert (c = 48 \/ c = 49 \/ c = 50 \/ c = 51 \/ c = 52 \/ c = 53 \/
          c = 54 \/ c = 55 \/ c = 56 \/ c = 57) as H by lia.
  repeat destruct H as [->|H]; try subst c; reflexivity.
Qed.

Lemma str_of_int_head z :
  exists c s, str_of_int z = c :: s /\
    (is_digit c = true \/
     c = 45 /\ exists d s', s = d :: s' /\ is_digit d = true).
Proof.
  unfold str_of_int. destruct (Z.ltb_spec z 0).
  - destruct (digits_of_spec (Z.to_nat (Z.log2 (- z))) (- z) [])
      as (c & ds & -> & Hd & _); [lia | |].
    { rewrite Z2Nat.id; [done | apply Z.log2_nonneg]. }
    apply Forall_cons in Hd as [Hcd Hd].
    exists 45, ((c :: ds) ++ []). split; [done|]. right. split; [done|].
    by exists c, (ds ++ []).
  - destruct (digits_of_spec (Z.to_nat (Z.log2 z)) z [])
      as (c & ds & -> & Hd & _); [lia | |].
    { rewrite Z2Nat.id; [done | apply Z.log2_nonneg]. }
    apply Forall_cons in Hd as [Hcd Hd].
    exists c, (ds ++ []). split; [done|]. by left.
Qed.

Lemma scan_once_int fuel z rest :
  ends_number rest = true ->
  scan_once (S fuel) (str_of_int z ++ rest) = Ok (JInt z, rest).
Proof.
  intros Hrest. rewrite <- (match_number_str_of_int z rest Hrest).
  destruct (str_of_int_head z) as (c & s & -> & [Hc | (-> & d & s' & -> & Hd)]).
  - by apply scan_once_digit.
  - by apply scan_once_minus.
Qed.
End NumberRoundTrip.

Section ValueRoundTrip.
Implicit Types (v : json) (s rest tail : pystr).

Lemma value_start_cons s :
  value_start s = true ->
  exists c r, s = c :: r /\ is_ws c = false /\ (c =? 93) = false /\
              (c =? 125) = false /\ (c =? 65279) = false.
Proof.
  destruct s as [|c r]; [done|]. cbn.
  rewrite negb_true_iff, !orb_false_iff. intros [[[? ?] ?] ?].
  by exists c, r.
Qed.

Lemma value_start_app s tail :
  value_start s = true -> value_start (s ++ tail) = true.
Proof. by destruct s. Qed.

Lemma skip_ws_start s : value_start s = true -> skip_ws s = s.
Proof.
  intros (c & r & -> & Hws & _)%value_start_cons. cbn. by rewrite Hws.
Qed.

Lemma skip_ws_space_start s :
  value_start s = true -> skip_ws (32 :: s) = s.
Proof. intros H. cbn. by apply skip_ws_start. Qed.

Lemma encode_str_start k tail : value_start (encode_str k ++ tail) = true.
Proof. done. Qed.

Lemma json_dumps_start v :
  representable v = true -> value_start (json_dumps v) = true.
Proof.
  destruct v as [|[]|z|lit|s|l|kvs]; try done. intros _. cbn [json_dumps].
  destruct (str_of_int_head z) as (c & s & -> & [Hc | (-> & _)]); [|done].
  cbn. unfold is_digit in Hc. unfold is_ws.
  rewrite negb_true_iff, !orb_false_iff. lia.
Qed.

Lemma json_dumps_nonempty v :
  representable v = true -> json_dumps v <> [].
Proof. intros H%json_dumps_start. by destruct (json_dumps v). Qed.

Lemma join_items_start x xs tail :
  value_start x = true -> value_start (join_items (x :: xs) ++ tail) = true.
Proof.
  intros H. cbn [join_items]. destruct xs.
  - by apply value_start_app.
  - rewrite <- app_assoc. by apply value_start_app.
Qed.

Lemma join_items_cons x y ys :
  join_items (x :: y :: ys) = x ++ 44 :: 32 :: join_items (y :: ys).
Proof. done. Qed.

Lemma join_items_elem_length x xs :
  x ∈ xs -> (length x <= length (join_items xs))%nat.
Proof.
  induction xs as [|y ys IH]; intros Hx; [by apply elem_of_nil in Hx|].
  apply elem_of_cons in Hx as [->|Hx].
  - destruct ys; cbn [join_items]; [done|]. rewrite length_app. lia.
  - specialize (IH Hx). destruct ys as [|y' ys]; [by apply elem_of_nil in Hx|].
    rewrite join_items_cons, length_app. cbn [length]. lia.
Qed.

Lemma join_items_length xs :
  Forall (fun x => x <> []) xs -> (length xs <= length (join_items xs))%nat.
Proof.
  induction 1 as [|x xs Hx Hxs IH]; [done|].
  destruct xs as [|y ys].
  - cbn. destruct x; [done|]. cbn. lia.
  - rewrite join_items_cons, length_app. cbn [length] in *.
    unfold pystr in *. lia.
Qed.

(** A dict built from pairs with distinct keys is these pairs. *)
Lemma dict_set_fresh kvs k v :
  k ∉ kvs.*1 -> dict_set kvs k v = kvs ++ [(k, v)].
Proof.
  induction kvs as [|[k' w] kvs IH]; intros Hk; [done|].
  cbn in Hk. apply not_elem_of_cons in Hk as [Hne Hk].
  cbn [dict_set]. rewrite bool_decide_eq_false_2 by done. by rewrite IH.
Qed.

Lemma dict_of_pairs_nodup kvs :
  NoDup kvs.*1 -> dict_of_pairs kvs = kvs.
Proof.
  unfold dict_of_pairs.
  assert (G : forall acc, NoDup (acc ++ kvs).*1 ->
            fold_left (fun d kv => dict_set d kv.1 kv.2) kvs acc
            = acc ++ kvs).
  { induction kvs as [|[k v] kvs IH]; intros acc Hnd.
    - by rewrite app_nil_r.
    - cbn [fold_left fst snd]. rewrite dict_set_fresh.
      + rewrite IH; [by rewrite <- app_assoc|].
        by rewrite <- app_assoc.
      + rewrite fmap_app in Hnd. apply NoDup_app in Hnd as (_ & Hd & _).
        intros Hin. apply (Hd k Hin). cbn. apply elem_of_cons. by left. }
  intros H. by apply (G []).
Qed.

Section Items.
Variable scan : pystr -> result (json * pystr).

Lemma parse_array_items_dumps l n rest :
  l <> [] -> (length l <= n)%nat ->
  Forall (fun v => representable v = true /\ reads_back scan v) l ->
  parse_array_items scan n (join_items (map json_dumps l) ++ 93 :: rest)
  = Ok (l, rest).
Proof.
  intros Hne Hn Hl. revert n Hn.
  induction Hl as [|v l [Hv Hscan] Hl IH]; intros n Hn; [done|].
  destruct n as [|n]; [cbn in Hn; lia|]. cbn [length] in Hn.
  destruct l as [|v2 l].
  - cbn [map join_items parse_array_items].
    rewrite Hscan by done. cbn [skip_ws is_ws Z.eqb Pos.eqb orb].
    done.
  - change (map json_dumps (v :: v2 :: l))
      with (json_dumps v :: json_dumps v2 :: map json_dumps l).
    rewrite join_items_cons, <- app_assoc. cbn [parse_array_items].
    rewrite Hscan by done. cbn [app].
    cbn [skip_ws is_ws Z.eqb Pos.eqb orb].
    apply Forall_cons in Hl as Hl'. destruct Hl' as [[Hv2 _] _].
    rewrite skip_ws_start
      by (apply join_items_start; by apply json_dumps_start).
    change (json_dumps v2 :: map json_dumps l)
      with (map json_dumps (v2 :: l)).
    rewrite IH; [done | done | cbn [length] in *; lia].
Qed.

Lemma parse_array_dumps l rest :
  Forall (fun v => representable v = true /\ reads_back scan v) l ->
  parse_array scan (join_items (map json_dumps l) ++ 93 :: rest)
  = Ok (JList l, rest).
Proof.
  intros Hl. destruct l as [|v l]; [done|].
  pose proof (proj1 (Forall_cons _ _ _) Hl) as [[Hv _] _].
  assert (Hstart : value_start
            (join_items (map json_dumps (v :: l)) ++ 93 :: rest) = true).
  { apply join_items_start. by apply json_dumps_start. }
  unfold parse_array. rewrite skip_ws_start by done.
  assert (Hlen : (length (v :: l)
      <= length (join_items (map json_dumps (v :: l))
                 ++ (93 : Z) :: rest))%nat).
  { rewrite length_app. etrans; [|apply Nat.le_add_r].
    rewrite <- (length_map json_dumps) at 1. apply join_items_length.
    apply Forall_fmap. eapply Forall_impl; [exact Hl|].
    intros x [Hx _]. by apply json_dumps_nonempty. }
  rewrite parse_array_items_dumps by done.
  destruct (value_start_cons _ Hstart) as (c & r & -> & _ & -> & _).
  done.
Qed.

Lemma parse_object_items_dumps kvs n rest :
  kvs <> [] -> (length kvs <= n)%nat ->
  Forall (fun kv => text kv.1 = true /\ representable kv.2 = true
                    /\ reads_back scan kv.2) kvs ->
  parse_object_items scan n
    (join_items (map pair_text kvs) ++ 125 :: rest)
  = Ok (kvs, rest).
Proof.
  intros Hne Hn Hl. revert n Hn.
  induction Hl as [|[k v] kvs (Hk & Hv & Hscan) Hl IH]; intros n Hn;
    [done|].
  destruct n as [|n]; [cbn in Hn; lia|]. cbn [length] in Hn.
  cbn [fst snd] in *.
  assert (Hpair : forall tail,
    pair_text (k, v) ++ tail
    = 34 :: (concat (map escape_char k)
             ++ 34 :: 58 :: 32 :: json_dumps v ++ tail)).
  { intros tail. unfold pair_text, encode_str. cbn [fst snd app].
    by rewrite <- !app_assoc. }
  destruct kvs as [|kv2 kvs].
  - cbn [map join_items parse_object_items]. rewrite Hpair.
    cbn [Z.eqb Pos.eqb]. rewrite scanstring_encode by done.
    cbn [skip_ws is_ws Z.eqb Pos.eqb orb].
    rewrite skip_ws_start
      by (apply value_start_app; by apply json_dumps_start).
    rewrite Hscan by done. cbn [skip_ws is_ws Z.eqb Pos.eqb orb]. done.
  - change (map pair_text ((k, v) :: kv2 :: kvs))
      with (pair_text (k, v) :: pair_text kv2 :: map pair_text kvs).
    rewrite join_items_cons, <- app_assoc. cbn [parse_object_items].
    rewrite Hpair. cbn [Z.eqb Pos.eqb]. rewrite scanstring_encode by done.
    cbn [skip_ws is_ws Z.eqb Pos.eqb orb].
    rewrite skip_ws_start
      by (apply value_start_app; by apply json_dumps_start).
    rewrite Hscan by done. cbn [app].
    cbn [skip_ws is_ws Z.eqb Pos.eqb orb].
    rewrite skip_ws_start by (apply join_items_start, encode_str_start).
    change (pair_text kv2 :: map pair_text kvs)
      with (map pair_text (kv2 :: kvs)).
    rewrite IH; [done | done | cbn [length] in *; lia].
Qed.

Lemma parse_object_dumps kvs rest :
  NoDup kvs.*1 ->
  Forall (fun kv => text kv.1 = true /\ representable kv.2 = true
                    /\ reads_back scan kv.2) kvs ->
  parse_object scan (join_items (map pair_text kvs) ++ 125 :: rest)
  = Ok (JDict kvs, rest).
Proof.
  intros Hnd Hl. destruct kvs as [|kv kvs]; [done|].
  assert (Hstart : value_start
            (join_items (map pair_text (kv :: kvs)) ++ 125 :: rest)
          = true).
  { apply join_items_start, encode_str_start. }
  unfold parse_object. rewrite skip_ws_start by done.
  assert (Hlen : (length (kv :: kvs)
      <= length (join_items (map pair_text (kv :: kvs))
                 ++ (125 : Z) :: rest))%nat).
  { rewrite length_app. etrans; [|apply Nat.le_add_r].
    rewrite <- (length_map pair_text) at 1. apply join_items_length.
    apply Forall_fmap. apply Forall_forall. by intros [k v] _. }
  rewrite parse_object_items_dumps by done.
  rewrite dict_of_pairs_nodup by done.
  destruct (value_start_cons _ Hstart) as (c & r & -> & _ & _ & -> & _).
  done.
Qed.
End Items.

(** [scan_once] reads back the text of a representable value, given fuel
    for its length. *)
Lemma scan_once_dumps v :
  representable v = true ->
  forall fuel rest,
    (length (json_dumps v) <= fuel)%nat ->
    ends_number rest = true ->
    scan_once fuel (json_dumps v ++ rest) = Ok (v, rest).
Proof.
  induction v as [|b|z|lit|s|l IH|kvs IH] using json_ind;
    intros Hv fuel rest Hfuel Hrest.
  - destruct fuel; [vm_compute in Hfuel; lia|]. done.
  - destruct fuel; [destruct b; vm_compute in Hfuel; lia|]. by destruct b.
  - destruct fuel.
    { destruct (str_of_int_head z) as (c & s & E & _).
      cbn [json_dumps] in Hfuel. rewrite E in Hfuel. cbn in Hfuel.
      unfold pystr in *. lia. }
    by apply scan_once_int.
  - done.
  - destruct fuel;
      [cbn in Hfuel; unfold encode_str in Hfuel; cbn in Hfuel;
       unfold pystr in *; lia|].
    by apply scan_once_str.
  - destruct fuel;
      [cbn [json_dumps length] in Hfuel; unfold pystr in *; lia|].
    cbn [json_dumps representable] in *.
    cbn [app scan_once Z.eqb Pos.eqb]. rewrite <- app_assoc. cbn [app].
    apply parse_array_dumps.
    rewrite forallb_forall in Hv. rewrite Forall_forall in IH |- *.
    intros v Hin. split; [by apply Hv, list_elem_of_In|].
    intros rest' Hrest'. apply IH; [done | by apply Hv, list_elem_of_In | | done].
    cbn [length] in Hfuel. rewrite length_app in Hfuel.
    pose proof (join_items_elem_length (json_dumps v) (map json_dumps l)
                  ltac:(by apply list_elem_of_fmap_2)) as Hle.
    lia.
  - destruct fuel;
      [cbn [json_dumps length] in Hfuel; unfold pystr in *; lia|].
    cbn [json_dumps representable] in *.
    apply andb_true_iff in Hv as [Hv Hnd].
    apply bool_decide_eq_true in Hnd.
    change (map (fun kv => encode_str kv.1 ++ 58 :: 32 :: json_dumps kv.2) kvs)
      with (map pair_text kvs) in *.
    cbn [app scan_once Z.eqb Pos.eqb]. rewrite <- app_assoc. cbn [app].
    apply parse_object_dumps; [done|].
    rewrite forallb_forall in Hv. rewrite Forall_forall in IH |- *.
    intros [k v] Hin. cbn [fst snd].
    pose proof (Hv (k, v) ltac:(by apply list_elem_of_In)) as Hkv.
    cbn [fst snd] in Hkv. apply andb_true_iff in Hkv as [Hk Hrv].
    split; [done|]. split; [done|].
    intros rest' Hrest'. apply (IH (k, v) Hin); [done | | done].
    cbn [length] in Hfuel. rewrite length_app in Hfuel.
    pose proof (join_items_elem_length (pair_text (k, v)) (map pair_text kvs)
                  ltac:(by apply (list_elem_of_fmap_2 pair_text))) as Hle.
    unfold pair_text in Hle at 1. rewrite length_app in Hle.
    cbn [length fst snd] in Hle |- *. unfold pystr in *. lia.
Qed.

(** [json.loads(json.dumps(v)) == v] for a representable value. *)
Lemma json_loads_dumps v :
  representable v = true -> json_loads (json_dumps v) = Ok v.
Proof.
  intros Hv. unfold json_loads.
  pose proof (json_dumps_start v Hv) as Hstart.
  rewrite skip_ws_start by done.
  rewrite <- (app_nil_r (json_dumps v)) at 3.
  rewrite scan_once_dumps; [|done|lia|done].
  destruct (value_start_cons _ Hstart) as (c & r & -> & _ & _ & _ & ->).
  done.
Qed.
End ValueRoundTrip.

(* ================================================================== *)
(** * Properties of the wire protocol *)

Section ProtocolFacts.
Lemma escape_char_nonempty c : (1 <= length (escape_char c))%nat.
Proof.
  unfold escape_char, u_escape, hex4.
  repeat case_match; rewrite ?length_app; cbn [length]; lia.
Qed.

Lemma encode_str_length s : (length s + 2 <= length (encode_str s))%nat.
Proof.
  unfold encode_str. cbn [length]. rewrite length_app. cbn [length].
  assert (length s <= length (concat (map escape_char s)))%nat; [|lia].
  induction s as [|c s IH]; [done|]. cbn [map concat length].
  rewrite length_app. pose proof (escape_char_nonempty c). lia.
Qed.

Lemma wire_dict kvs :
  exists body, wire (JDict kvs) = "{"%byte :: body ++ ["}"%byte].
Proof.
  unfold wire, ascii_bytes. cbn [json_dumps map]. rewrite map_app.
  by eexists.
Qed.

Lemma request_representable method params :
  text method = true -> representable params = true ->
  representable (request_message method params) = true.
Proof.
  intros Hm Hp. cbn [request_message representable forallb fst snd].
  rewrite Hm, Hp. by vm_compute.
Qed.

Lemma response_representable res error :
  representable res = true ->
  match error with Some msg => text msg | None => true end = true ->
  representable (response_message res error) = true.
Proof.
  intros Hr He. cbn [response_message representable forallb fst snd].
  rewrite Hr. destruct error as [msg|]; cbn [of_optional representable].
  - rewrite He. by vm_compute.
  - by vm_compute.
Qed.

Lemma representable_float_free v :
  representable v = true -> float_free v = true.
Proof.
  induction v as [|b|z|lit|s|l IH|kvs IH] using json_ind; try done.
  - cbn. intros H. rewrite forallb_forall in H |- *.
    rewrite Forall_forall in IH. intros v Hv.
    apply IH; [by apply list_elem_of_In | by apply H].
  - cbn. intros [H _]%andb_true_iff. rewrite forallb_forall in H |- *.
    rewrite Forall_forall in IH. intros [k v] Hkv.
    apply (IH (k, v)); [by apply list_elem_of_In|].
    by destruct (andb_prop _ _ (H _ Hkv)).
Qed.

(** Decoding the wire form of a representable message gives it back. *)
Lemma decode_wire_representable v :
  representable v = true -> decode (wire v) = Ok v.
Proof.
  intros H. rewrite decode_wire by by apply representable_float_free.
  by apply json_loads_dumps.
Qed.
End ProtocolFacts.

(** C3 as stated does not hold: the encoded load request for [a.txt] is not a
    length-prefixed frame, for any width of the prefix and either byte
    order. *)
Lemma C3_request_not_length_prefixed :
  exists data,
    encode_request (py "load") (JDict [(py "file_path", JStr (py "a.txt"))])
    = Ok data /\
    forall (w : nat) (order : byte_order), ~ length_prefixed w order data.
Proof.
  eexists. split; [by vm_compute|].
  intros w order [Hlen Heq].
  match type of Hlen with
  | (_ <= length ?d)%nat =>
      assert (Hall : forallb (fun w : nat =>
                negb (uint_of_bytes BigEndian (take w d)
                      =? Z.of_nat (length d - w))
                && negb (uint_of_bytes LittleEndian (take w d)
                         =? Z.of_nat (length d - w)))
              (seq 0 (S (length d))) = true) by (by vm_compute)
  end.
  rewrite forallb_forall in Hall. specialize (Hall w).
  rewrite andb_true_iff, !negb_true_iff, !Z.eqb_neq in Hall.
  destruct Hall as [Hbe Hle].
  - apply in_seq. cbn [length] in *. lia.
  - by destruct order.
Qed.

(** C3, what holds instead: the wire form of a request or a response is the JSON
    text of the message and nothing else: it opens with the brace of the
    object and closes with its brace, it is longer than the method name, and
    [decode] gives the message back whatever the length; the maximum message
    size, 10 MiB, is not consulted. *)
Theorem C3_wire_is_bare_json
    (method : pystr) (params res : json) (error : option pystr)
    (Hmethod : text method = true)
    (Hparams : representable params = true)
    (Hres : representable res = true)
    (Herror : match error with Some msg => text msg | None => true end
              = true) :
  MAX_MESSAGE_SIZE = 10485760 /\
  (exists body,
     encode_request method params = Ok ("{"%byte :: body ++ ["}"%byte]) /\
     (length method < length ("{"%byte :: body ++ ["}"%byte]))%nat /\
     decode ("{"%byte :: body ++ ["}"%byte])
     = Ok (request_message method params)) /\
  (exists body,
     encode_response res error = Ok ("{"%byte :: body ++ ["}"%byte]) /\
     decode ("{"%byte :: body ++ ["}"%byte])
     = Ok (response_message res error)).
Proof.
  split; [done|]. split.
  - pose proof (request_representable method params Hmethod Hparams) as Hrep.
    destruct (wire_dict [(py "type", JStr (py "request"));
                         (py "method", JStr method);
                         (py "params", params)]) as [body Hbody].
    fold (request_message method params) in Hbody.
    exists body. rewrite <- Hbody. split; [|split].
    + apply str_encode_json. by apply representable_float_free.
    + unfold wire, ascii_bytes. rewrite length_map. cbn [request_message json_dumps map join_items].
      cbn [length]. rewrite !length_app.
      pose proof (encode_str_length method). cbn [fst snd]. cbn [length].
      rewrite !length_app. cbn [length json_dumps]. unfold pystr in *. lia.
    + by apply decode_wire_representable.
  - pose proof (response_representable res error Hres Herror) as Hrep.
    destruct (wire_dict [(py "type", JStr (py "response"));
                         (py "result", res);
                         (py "error", of_optional error)]) as [body Hbody].
    fold (response_message res error) in Hbody.
    exists body. rewrite <- Hbody. split.
    + apply str_encode_json. by apply representable_float_free.
    + by apply decode_wire_representable.
Qed.

Lemma C3_witness :
  exists body,
    encode_request (py "sample") (JDict [(py "n", JInt 3)])
    = Ok ("{"%byte :: body ++ ["}"%byte]) /\
    decode ("{"%byte :: body ++ ["}"%byte])
    = Ok (request_message (py "sample") (JDict [(py "n", JInt 3)])).
Proof.
  destruct (C3_wire_is_bare_json (py "sample") (JDict [(py "n", JInt 3)])
              JNull (Some (py "n must be an integer")))
    as (_ & (body & Henc & _ & Hdec) & _).
  - by vm_compute.
  - by vm_compute.
  - done.
  - by vm_compute.
  - by exists body.
Defined.

(** C7: encoding a request with a method name and parameters the protocol
    represents, then decoding the bytes, gives a message with this method
    and these parameters; encoding an error response with a message, then
    decoding, gives a response with a null result and this error. *)
Theorem C7_protocol_round_trip
    (method : pystr) (params : json) (message : pystr)
    (Hmethod : text method = true)
    (Hparams : representable params = true)
    (Hmessage : text message = true) :
  (exists data decoded,
     encode_request method params = Ok data /\
     decode data = Ok decoded /\
     py_get decoded (py "method") JNull = Ok (JStr method) /\
     py_get decoded (py "params") (JDict []) = Ok params) /\
  (exists data decoded,
     encode_response JNull (Some message) = Ok data /\
     decode data = Ok decoded /\
     py_get decoded (py "result") JNull = Ok JNull /\
     py_get decoded (py "error") JNull = Ok (JStr message)).
Proof.
  split.
  - exists (wire (request_message method params)),
           (request_message method params).
    pose proof (request_representable method params Hmethod Hparams) as Hrep.
    split; [apply str_encode_json; by apply representable_float_free|].
    split; [by apply decode_wire_representable|]. done.
  - exists (wire (response_message JNull (Some message))),
           (response_message JNull (Some message)).
    split; [apply encode_response_error|].
    split; [|done].
    apply decode_wire_representable. by apply response_representable.
Qed.

Lemma C7_witness :
  exists data decoded,
    encode_request (py "load") (JDict [(py "file_path", JStr (py "a.txt"))])
    = Ok data /\
    decode data = Ok decoded /\
    py_get decoded (py "method") JNull = Ok (JStr (py "load")) /\
    py_get decoded (py "params") (JDict [])
    = Ok (JDict [(py "file_path", JStr (py "a.txt"))]).
Proof.
  refine (proj1 (C7_protocol_round_trip (py "load")
                   (JDict [(py "file_path", JStr (py "a.txt"))])
                   (py "Missing n parameter") _ _ _)); by vm_compute.
Defined.

(** Outside [text]: a high surrogate directly followed by a low one is
    escaped like the character the pair stands for, and read back as that
    one character. *)
Example surrogate_pair_is_joined :
  json_loads (json_dumps (JStr [55357; 56832])) = Ok (JStr [128512]).
Proof. by vm_compute. Qed.

(* ================================================================== *)
(** * Further properties of the line store *)

Section StoreMore.
Implicit Types (c : ThreadSafeCache) (n : Z) (picks : list nat).

(** The elements found at distinct positions of a list form a
    sub-multiset of the list. *)
Lemma lookup_positions_submseteq {A} (l : list A) (positions : list nat) :
  NoDup positions -> omap (fun i => l !! i) positions ⊆+ l.
Proof.
  intros Hnd.
  set (tag := fun i => (fun x => (i, x)) <$> l !! i).
  assert (Hfst : forall ps : list nat, (omap tag ps).*1 `sublist_of` ps).
  { induction ps as [|i ps IH]; [done|]. cbn. unfold tag at 1.
    destruct (l !! i); cbn; by constructor. }
  assert (Hsnd : forall ps : list nat,
             (omap tag ps).*2 = omap (fun i => l !! i) ps).
  { induction ps as [|i ps IH]; [done|]. cbn. unfold tag at 1.
    destruct (l !! i); cbn; by rewrite IH. }
  rewrite <- Hsnd.
  assert (Himap : (imap (fun i x => (i, x)) l).*2 = l).
  { assert (G : forall (k : list A) (f : nat -> A -> nat * A),
               (forall i x, (f i x).2 = x) -> (imap f k).*2 = k).
    { induction k as [|x k IH]; intros f Hf; [done|]. cbn.
      rewrite Hf. f_equal. apply IH. intros i y. apply Hf. }
    by apply G. }
  assert (H : (omap tag positions).*2 ⊆+ (imap (fun i x => (i, x)) l).*2);
    [|by rewrite Himap in H].
  apply fmap_submseteq.
  apply NoDup_submseteq.
  - apply (NoDup_fmap_1 fst). eapply sublist_NoDup; [exact Hnd | apply Hfst].
  - intros [i x]. rewrite list_elem_of_omap. intros (j & _ & Hj).
    unfold tag in Hj. destruct (l !! j) as [y|] eqn:E; [|done].
    cbn in Hj. simplify_eq. by apply (elem_of_lookup_imap_2 (fun i x => (i, x))).
Qed.

Lemma filter_all {A} (P : A -> Prop) `{forall x, Decision (P x)} (l : list A) :
  (forall x, x ∈ l -> P x) -> filter P l = l.
Proof.
  induction l as [|x l IH]; intros Hall; [done|].
  rewrite filter_cons_True by (apply Hall; by left).
  f_equal. apply IH. intros y Hy. apply Hall. by right.
Qed.

Lemma random_sample_submseteq {A} picks (pop : list A) k :
  NoDup picks -> random_sample picks pop k ⊆+ pop.
Proof.
  intros Hnd. apply lookup_positions_submseteq.
  eapply sublist_NoDup; [done | apply sublist_take].
Qed.

(** What a draw at distinct positions returns, the rebuild removes at
    least. *)
Lemma sample_accounting picks n c :
  NoDup picks ->
  size (sample picks n c).2 + len (sample picks n c).1 <= size c.
Proof.
  intros Hnd. unfold sample, size.
  destruct (_ || _); cbn [fst snd]; [unfold len; cbn; lia|].
  set (l := available_lines c).
  set (sampled := random_sample picks l (Z.to_nat (Z.min n (len l)))).
  cbn [available_lines].
  destruct (submseteq_Permutation sampled l) as [k Hk];
    [by apply random_sample_submseteq|].
  pose proof (filter_app_complement
                (fun line => line ∉ (list_to_set sampled : gset pystr)) l)
    as Hperm.
  apply Permutation_length in Hperm. rewrite length_app in Hperm.
  assert (Hge : (length sampled <=
                 length (filter (fun line : pystr =>
                    ¬ (line ∉ (list_to_set sampled : gset pystr))) l))%nat).
  { rewrite Hk, filter_app, length_app.
    assert (E : filter (fun line : pystr =>
                 ¬ (line ∉ (list_to_set sampled : gset pystr))) sampled
                = sampled).
    { apply filter_all. intros x Hx Hnot. apply Hnot.
      by apply elem_of_list_to_set. }
    rewrite E. lia. }
  unfold len. unfold pystr in *. lia.
Qed.
End StoreMore.

Section StoreDrain.
Lemma lookup_all_positions {A} (pre l : list A) :
  omap (fun i => (pre ++ l) !! i) (seq (length pre) (length l)) = l.
Proof.
  revert pre. induction l as [|x l IH]; intros pre; [done|].
  cbn [length seq]. cbn.
  rewrite list_lookup_middle by done. cbn. f_equal.
  specialize (IH (pre ++ [x])). rewrite length_app in IH. cbn in IH.
  rewrite <- app_assoc in IH. cbn in IH.
  by replace (S (length pre)) with (length pre + 1)%nat by lia.
Qed.

Lemma filter_none {A} (P : A -> Prop) `{forall x, Decision (P x)} (l : list A) :
  (forall x, x ∈ l -> ¬ P x) -> filter P l = [].
Proof.
  induction l as [|x l IH]; intros Hall; [done|].
  rewrite filter_cons_False by (apply Hall; by left).
  apply IH. intros y Hy. apply Hall. by right.
Qed.

(** A draw of as many distinct positions as the list has returns the
    whole list, in some order. *)
Lemma random_sample_all {A} picks (pop : list A) :
  is_random_sample picks (length pop) (length pop) ->
  random_sample picks pop (length pop) ≡ₚ pop.
Proof.
  intros (Hnd & Hlt & Hlen). unfold random_sample.
  rewrite firstn_all2 by lia.
  assert (Hperm : picks ≡ₚ seq 0 (length pop)).
  { apply submseteq_length_Permutation; [|rewrite length_seq; lia].
    apply NoDup_submseteq; [done|]. intros i Hi. apply elem_of_seq.
    rewrite Forall_forall in Hlt. specialize (Hlt i Hi). lia. }
  rewrite Hperm. apply (reflexive_eq (R:=(≡ₚ))).
  apply (lookup_all_positions [] pop).
Qed.

Lemma sample_returns_available picks n (c : ThreadSafeCache) line :
  line ∈ (sample picks n c).1 -> line ∈ available_lines c.
Proof.
  unfold sample. destruct (_ || _); cbn [fst].
  - by intros ?%elem_of_nil.
  - apply random_sample_elem.
Qed.
End StoreDrain.

(** X1: with a draw that follows the contract of [random.sample], a call
    of [sample(n)] on a store of [k] lines returns [min(n, k)] lines, and
    none for a negative [n]. *)
Theorem X1_sample_returns_count (picks : list nat) (n : Z)
    (c : ThreadSafeCache) (Hpicks : picks_ok picks n c) :
  len (sample picks n c).1 = Z.max 0 (Z.min n (size c)).
Proof.
  destruct (Z.le_gt_cases 0 n) as [Hn|Hn].
  - rewrite sample_count by done. pose proof (len_nonneg (available_lines c)).
    unfold size. lia.
  - rewrite sample_guard by lia. unfold len. cbn. lia.
Qed.

Lemma X1_witness :
  len (sample [2; 0]%nat 2 (mkCache [py "a"; py "b"; py "c"] 3)).1 = 2.
Proof.
  apply (X1_sample_returns_count [2; 0]%nat 2
           (mkCache [py "a"; py "b"; py "c"] 3)).
  split; [|split].
  - apply NoDup_cons. split; [by intros ?%list_elem_of_singleton|].
    apply NoDup_singleton.
  - repeat constructor.
  - reflexivity.
Defined.

(** X2: on a store whose available lines are pairwise distinct, a call of
    [sample(n)] with a draw that follows the contract leaves as many lines
    as there were, less the lines it returned. *)
Theorem X2_sample_distinct_size (picks : list nat) (n : Z)
    (c : ThreadSafeCache)
    (Hdistinct : NoDup (available_lines c))
    (Hpicks : picks_ok picks n c) :
  size (sample picks n c).2 = size c - Z.max 0 (Z.min n (size c)).
Proof.
  destruct (Z.le_gt_cases 0 n) as [Hn|Hn].
  - rewrite sample_distinct_size by done.
    pose proof (len_nonneg (available_lines c)). unfold size. lia.
  - rewrite sample_guard by lia. cbn. lia.
Qed.

Lemma X2_witness :
  size (sample [2; 0]%nat 2 (mkCache [py "a"; py "b"; py "c"] 3)).2 = 1.
Proof.
  apply (X2_sample_distinct_size [2; 0]%nat 2
           (mkCache [py "a"; py "b"; py "c"] 3)).
  - apply (bool_decide_unpack _). by vm_compute.
  - split; [|split].
    + apply NoDup_cons. split; [by intros ?%list_elem_of_singleton|].
      apply NoDup_singleton.
    + repeat constructor.
    + reflexivity.
Defined.

(** X3: a line that [sample] returns is no longer available afterwards,
    in any instance, and no later call of [sample] returns it, whatever
    the draws. *)
Theorem X3_sampled_lines_are_gone (picks picks' : list nat) (n n' : Z)
    (c : ThreadSafeCache) (line : pystr)
    (Hline : line ∈ (sample picks n c).1) :
  (line ∉ available_lines (sample picks n c).2) /\
  (line ∉ (sample picks' n' (sample picks n c).2).1).
Proof.
  assert (Hgone : line ∉ available_lines (sample picks n c).2).
  { revert Hline. unfold sample. destruct (_ || _); cbn [fst snd].
    - by intros ?%elem_of_nil.
    - intros Hin. cbn [available_lines]. rewrite list_elem_of_filter.
      intros [Hnot _]. apply Hnot. by apply elem_of_list_to_set. }
  split; [done|]. intros Hin. apply Hgone.
  by eapply sample_returns_available.
Qed.

Lemma X3_witness :
  py "x" ∉ (sample [0; 1]%nat 2
              (sample [0%nat] 1 (mkCache [py "x"; py "y"; py "x"] 3)).2).1.
Proof.
  refine (proj2 (X3_sampled_lines_are_gone [0%nat] [0; 1]%nat 1 2
                   (mkCache [py "x"; py "y"; py "x"] 3) (py "x") _)).
  apply (bool_decide_unpack _). by vm_compute.
Defined.

(** X4: a call of [sample(n)] with [n] at least the number of available
    lines, and a draw that follows the contract, returns every available
    line (each instance once, in some order) and leaves none. *)
Theorem X4_sample_drains_store (picks : list nat) (n : Z)
    (c : ThreadSafeCache)
    (Hn : size c <= n)
    (Hpicks : picks_ok picks n c) :
  (sample picks n c).1 ≡ₚ available_lines c /\
  available_lines (sample picks n c).2 = [].
Proof.
  unfold size in Hn. unfold picks_ok in Hpicks.
  destruct (decide (available_lines c = [])) as [E|E].
  - rewrite sample_guard by by left. by rewrite E.
  - unfold sample. rewrite bool_decide_eq_false_2 by done.
    assert (0 < len (available_lines c)).
    { unfold len. destruct (available_lines c); [done|]. cbn. lia. }
    destruct (Z.leb_spec n 0); [lia|]. cbn [orb fst snd available_lines].
    replace (Z.to_nat (Z.min n (len (available_lines c))))
      with (length (available_lines c)) in * by (unfold len in *; lia).
    pose proof (random_sample_all picks (available_lines c) Hpicks) as Hall.
    split; [done|]. apply filter_none. intros x Hx Hnot. apply Hnot.
    apply elem_of_list_to_set. by rewrite Hall.
Qed.

Lemma X4_witness :
  available_lines
    (sample [1; 0]%nat 5 (mkCache [py "a"; py "a"] 2)).2 = [].
Proof.
  refine (proj2 (X4_sample_drains_store [1; 0]%nat 5
                   (mkCache [py "a"; py "a"] 2) _ _)).
  - by vm_compute.
  - split; [|split].
    + apply (bool_decide_unpack _). by vm_compute.
    + repeat constructor.
    + reflexivity.
Defined.

Lemma run_op_accounting (op : store_op) (c : ThreadSafeCache) (handed : Z) :
  distinct_draws [op] ->
  size c + handed <= total_lines_loaded c ->
  size (run_op op c) + (handed + returned_by op c)
  <= total_lines_loaded (run_op op c).
Proof.
  intros Hop%Forall_cons_1 Hinv. destruct Hop as [Hop _].
  destruct op as [lines|picks n| |]; cbn [run_op returned_by].
  - unfold add_lines, size in *. cbn. rewrite len_app. lia.
  - rewrite sample_total. pose proof (sample_accounting picks n c Hop). lia.
  - lia.
  - lia.
Qed.

(** X5: over any run of store operations from the empty store in which
    every draw is made of distinct positions, the lines still available
    plus the lines handed out by [sample] never exceed the lines loaded. *)
Theorem X5_handed_out_never_exceeds_loaded (ops : list store_op)
    (Hdraws : distinct_draws ops) :
  size (run_ops ops cache_init 0).1 + (run_ops ops cache_init 0).2
  <= total_lines_loaded (run_ops ops cache_init 0).1.
Proof.
  assert (G : forall c handed,
             size c + handed <= total_lines_loaded c ->
             size (run_ops ops c handed).1 + (run_ops ops c handed).2
             <= total_lines_loaded (run_ops ops c handed).1).
  { induction Hdraws as [|op ops Hop _ IH]; intros c handed Hinv; [done|].
    cbn [run_ops]. apply IH. apply run_op_accounting; [|done].
    by apply List.Forall_cons. }
  by apply G.
Qed.

Lemma X5_witness :
  let ops := [OpAddLines [py "a"; py "a"; py "b"];
              OpSample [0%nat] 1; OpStats; OpSample [0%nat] 4] in
  size (run_ops ops cache_init 0).1 + (run_ops ops cache_init 0).2
  <= total_lines_loaded (run_ops ops cache_init 0).1.
Proof.
  apply X5_handed_out_never_exceeds_loaded.
  repeat (apply List.Forall_cons; [try done; apply NoDup_singleton|]).
  apply List.Forall_nil.
Defined.

(* ================================================================== *)
(** * Further properties of the wire protocol *)

(** X6: encoding a response with a result the protocol represents and no
    error, then decoding the bytes, gives a response message with this
    result and a null error. *)
Theorem X6_result_response_round_trip (res : json)
    (Hres : representable res = true) :
  exists data decoded,
    encode_response res None = Ok data /\
    decode data = Ok decoded /\
    py_get decoded (py "type") JNull = Ok (JStr (py "response")) /\
    py_get decoded (py "result") JNull = Ok res /\
    py_get decoded (py "error") JNull = Ok JNull.
Proof.
  exists (wire (response_message res None)), (response_message res None).
  split; [by apply encode_response_result, representable_float_free|].
  split; [|done].
  apply decode_wire_representable. by apply response_representable.
Qed.

Lemma X6_witness :
  exists data decoded,
    encode_response (JDict [(py "lines", JList [JStr (py "a"); JStr []])])
      None = Ok data /\
    decode data = Ok decoded /\
    py_get decoded (py "result") JNull
    = Ok (JDict [(py "lines", JList [JStr (py "a"); JStr []])]).
Proof.
  destruct (X6_result_response_round_trip
              (JDict [(py "lines", JList [JStr (py "a"); JStr []])]))
    as (data & decoded & H1 & H2 & _ & H3 & _).
  - by vm_compute.
  - by exists data, decoded.
Defined.

Section Coalesced.
Lemma ascii_bytes_app s1 s2 :
  ascii_bytes (s1 ++ s2) = ascii_bytes s1 ++ ascii_bytes s2.
Proof. unfold ascii_bytes. apply map_app. Qed.

(** The text of a value followed by the text of an object is not one
    JSON document. *)
Lemma json_loads_two_documents v kvs :
  representable v = true ->
  json_loads (json_dumps v ++ json_dumps (JDict kvs))
  = raise JSONDecodeError (py "Extra data").
Proof.
  intros Hv. pose proof (json_dumps_start v Hv) as Hstart.
  unfold json_loads. rewrite skip_ws_start by by apply value_start_app.
  rewrite scan_once_dumps; [|done|rewrite length_app; lia|done].
  destruct (value_start_cons _ Hstart) as (c & r & -> & _ & _ & _ & Hbom).
  cbn [app]. rewrite Hbom. done.
Qed.
End Coalesced.

(** X7: when a request the protocol represents and a second request
    object arrive in one read, the data does not decode: [json.loads]
    raises a [JSONDecodeError] for the data after the first document. The
    server answers once, with the Error response of this exception, and
    runs neither request; the store is unchanged. *)
Theorem X7_coalesced_requests_rejected
    (rt : PyRuntime) (i : nat) (cache : ThreadSafeCache)
    (method : pystr) (params : json) (second : list (pystr * json))
    (Hsend : reliable_transport rt)
    (Hmethod : text method = true)
    (Hparams : representable params = true)
    (Hsecond : float_free (JDict second) = true) :
  let data := wire (request_message method params) ++ wire (JDict second) in
  exists e,
    exn_cls e = JSONDecodeError /\
    decode data = Err e /\
    dispatch rt i data cache = (Err e, cache) /\
    handle_request rt i data cache = (Ok (error_response e), cache).
Proof.
  cbv zeta. exists (mkExn JSONDecodeError (py "Extra data")).
  assert (Hdec : decode (wire (request_message method params)
                         ++ wire (JDict second))
                 = Err (mkExn JSONDecodeError (py "Extra data"))).
  { unfold decode, wire. rewrite <- ascii_bytes_app.
    rewrite bytes_decode_ascii.
    - apply json_loads_two_documents. by apply request_representable.
    - apply Forall_app. split; apply json_dumps_ascii; [|done].
      by apply representable_float_free, request_representable. }
  assert (Hbad : dispatch rt i
                   (wire (request_message method params)
                    ++ wire (JDict second)) cache
                 = (Err (mkExn JSONDecodeError (py "Extra data")), cache)).
  { apply bad_request_dispatch. by apply bad_encoding. }
  repeat split; [done|done|].
  by apply handle_request_err.
Qed.

Lemma X7_witness :
  let request := wire (request_message (py "sample")
                         (JDict [(py "n", JInt 1)])) in
  exists e,
    exn_cls e = JSONDecodeError /\
    decode (request ++ request) = Err e /\
    dispatch example_runtime 0 (request ++ request)
      (mkCache [py "a"; py "b"] 2)
    = (Err e, mkCache [py "a"; py "b"] 2) /\
    handle_request example_runtime 0 (request ++ request)
      (mkCache [py "a"; py "b"] 2)
    = (Ok (error_response e), mkCache [py "a"; py "b"] 2).
Proof.
  refine (X7_coalesced_requests_rejected example_runtime 0
            (mkCache [py "a"; py "b"] 2) (py "sample")
            (JDict [(py "n", JInt 1)])
            [(py "type", JStr (py "request"));
             (py "method", JStr (py "sample"));
             (py "params", JDict [(py "n", JInt 1)])] _ _ _ _).
  - by intros i attempt.
  - by vm_compute.
  - by vm_compute.
  - by vm_compute.
Defined.

Ltac printable_items :=
  repeat (apply List.Forall_cons; [unfold is_printable; lia|]);
  try apply List.Forall_nil.

Section Printable.
Implicit Types (c : Z) (s : pystr).

Lemma py_printable (lit : string) :
  forallb (fun c => (32 <=? c) && (c <=? 126)) (py lit) = true ->
  Forall is_printable (py lit).
Proof.
  intros H. apply Forall_forall. intros c Hc.
  rewrite forallb_forall in H. apply list_elem_of_In, H in Hc.
  unfold is_printable. lia.
Qed.

Lemma digits_of_printable fuel n acc :
  Forall is_printable acc -> Forall is_printable (digits_of fuel n acc).
Proof.
  revert n acc. induction fuel as [|fuel IH]; intros n acc Hacc; simpl.
  - apply List.Forall_cons; [|done]. unfold is_printable.
    pose proof (Z.mod_pos_bound n 10). lia.
  - assert (Forall is_printable ((48 + n mod 10) :: acc)).
    { apply List.Forall_cons; [|done]. unfold is_printable.
      pose proof (Z.mod_pos_bound n 10). lia. }
    destruct (n <? 10); [done|]. by apply IH.
Qed.

Lemma str_of_int_printable z : Forall is_printable (str_of_int z).
Proof.
  unfold str_of_int. destruct (z <? 0).
  - printable_items. by apply digits_of_printable.
  - by apply digits_of_printable.
Qed.

Lemma hex_digit_printable d : 0 <= d < 16 -> is_printable (hex_digit d).
Proof. unfold hex_digit, is_printable. destruct (d <? 10); lia. Qed.

Lemma u_escape_printable n : Forall is_printable (u_escape n).
Proof.
  unfold u_escape, hex4.
  do 2 (apply List.Forall_cons; [unfold is_printable; lia|]).
  repeat (apply List.Forall_cons;
          [apply hex_digit_printable, Z.mod_pos_bound; lia|]).
  apply List.Forall_nil.
Qed.

Lemma escape_char_printable c : Forall is_printable (escape_char c).
Proof.
  unfold escape_char.
  do 7 (case_match; [by printable_items|]).
  destruct (_ && _) eqn:E.
  { rewrite andb_true_iff, !Z.leb_le in E. printable_items. }
  case_match; [apply u_escape_printable|].
  apply Forall_app. split; apply u_escape_printable.
Qed.

Lemma encode_str_printable s : Forall is_printable (encode_str s).
Proof.
  unfold encode_str. printable_items.
  apply Forall_app. split; [|by printable_items].
  induction s as [|c s IH]; simpl; [done|].
  apply Forall_app. split; [apply escape_char_printable | done].
Qed.

Lemma join_items_printable items :
  Forall (Forall is_printable) items ->
  Forall is_printable (join_items items).
Proof.
  induction 1 as [|x items Hx Hitems IH]; [done|]. simpl.
  destruct items as [|y items]; [done|].
  apply Forall_app. split; [done|]. by printable_items.
Qed.

Lemma json_dumps_printable v :
  float_free v = true -> Forall is_printable (json_dumps v).
Proof.
  induction v as [|[]|z|lit|s|l IH|kvs IH] using json_ind; cbn; intros Hf.
  - by apply py_printable.
  - by apply py_printable.
  - by apply py_printable.
  - apply str_of_int_printable.
  - done.
  - apply encode_str_printable.
  - printable_items.
    apply Forall_app. split; [|by printable_items].
    apply join_items_printable. apply Forall_fmap.
    rewrite forallb_forall in Hf. rewrite Forall_forall in IH |- *.
    intros v Hv. apply IH; [done|]. by apply Hf, list_elem_of_In.
  - printable_items.
    apply Forall_app. split; [|by printable_items].
    apply join_items_printable. apply Forall_fmap.
    rewrite forallb_forall in Hf. rewrite Forall_forall in IH |- *.
    intros [k v] Hkv. cbn. apply Forall_app. split.
    + apply encode_str_printable.
    + printable_items.
      apply (IH (k, v) Hkv). by apply (Hf (k, v)), list_elem_of_In.
Qed.

Lemma wire_printable v :
  float_free v = true ->
  Forall (fun b => is_printable (Z_of_byte b)) (wire v).
Proof.
  intros Hv. unfold wire, ascii_bytes. apply Forall_fmap.
  eapply Forall_impl; [by apply json_dumps_printable|].
  intros c Hc. cbn. unfold is_printable in *.
  rewrite Z_of_byte_of_Z; lia.
Qed.
End Printable.

(** X8: encoding a request or a response never raises as long as the
    parameters or the result hold no float, whatever the strings in them,
    and every byte of the encoded message is a printable ASCII character:
    the message holds no newline, no control character and no byte above
    0x7E. *)
Theorem X8_encoded_message_is_printable_ascii
    (method : pystr) (params res : json) (error : option pystr)
    (Hparams : float_free params = true)
    (Hres : float_free res = true) :
  (exists data,
     encode_request method params = Ok data /\
     Forall (fun b => is_printable (Z_of_byte b)) data) /\
  (exists data,
     encode_response res error = Ok data /\
     Forall (fun b => is_printable (Z_of_byte b)) data).
Proof.
  split.
  - exists (wire (request_message method params)).
    split; [by apply encode_request_wire|].
    apply wire_printable. cbn. by rewrite Hparams.
  - assert (Hf : float_free (response_message res error) = true).
    { cbn. rewrite Hres. by destruct error. }
    exists (wire (response_message res error)).
    split; [by apply str_encode_json | by apply wire_printable].
Qed.

Lemma X8_witness :
  exists data,
    encode_response JNull (Some (py "bad" ++ [10; 233; 128512])) = Ok data /\
    Forall (fun b => is_printable (Z_of_byte b)) data.
Proof.
  refine (proj2 (X8_encoded_message_is_printable_ascii [] JNull JNull
                   (Some (py "bad" ++ [10; 233; 128512])) _ _)); done.
Defined.

(* ================================================================== *)
(** * Further properties of the request handlers *)

Section Rstrip.
Lemma lstrip_newlines_spec (s : pystr) :
  exists removed,
    s = removed ++ lstrip_newlines s /\
    Forall is_newline removed /\
    match lstrip_newlines s with
    | [] => True
    | c :: _ => ~ is_newline c
    end.
Proof.
  induction s as [|c s (removed & Hs & Hnl & Hhead)].
  - by exists [].
  - cbn [lstrip_newlines].
    destruct (Z.eqb_spec c 10) as [->|H10]; cbn [orb].
    { exists (10 :: removed). split; [cbn; by f_equal|].
      split; [|done]. apply List.Forall_cons; [by left | done]. }
    destruct (Z.eqb_spec c 13) as [->|H13].
    { exists (13 :: removed). split; [cbn; by f_equal|].
      split; [|done]. apply List.Forall_cons; [by right | done]. }
    exists []. split; [done|]. split; [done|]. unfold is_newline. lia.
Qed.
End Rstrip.

(** X9: [rstrip] of the line terminators cuts a line into what it keeps
    and a removed end made of newlines and carriage returns only; what it
    keeps does not end with one of them, and newlines inside the line
    stay. *)
Theorem X9_rstrip_newlines (line : pystr) :
  exists removed,
    line = rstrip_newlines line ++ removed /\
    Forall is_newline removed /\
    match last (rstrip_newlines line) with
    | None => True
    | Some c => ~ is_newline c
    end.
Proof.
  unfold rstrip_newlines.
  destruct (lstrip_newlines_spec (reverse line)) as (removed & Hs & Hnl & Hhead).
  exists (reverse removed). split; [|split].
  - rewrite <- reverse_app, <- Hs. by rewrite reverse_involutive.
  - by apply Forall_reverse.
  - destruct (lstrip_newlines (reverse line)) as [|c rest]; [done|].
    by rewrite reverse_cons, last_snoc.
Qed.

Section HandlerFacts.
Variable rt : PyRuntime.
Implicit Types (cache : ThreadSafeCache) (data : list byte) (i : nat).

Lemma handle_load_err params cache e cache' :
  handle_load rt params cache = (Err e, cache') -> cache' = cache.
Proof.
  unfold handle_load. intros H. repeat case_match; by simplify_eq.
Qed.

Lemma handle_sample_err i params cache e cache' :
  handle_sample rt i params cache = (Err e, cache') -> cache' = cache.
Proof.
  unfold handle_sample. intros H. repeat case_match; by simplify_eq.
Qed.

Lemma dispatch_err i data cache e cache' :
  dispatch rt i data cache = (Err e, cache') -> cache' = cache.
Proof.
  unfold dispatch. intros H.
  repeat case_match; simplify_eq;
    eauto using handle_load_err, handle_sample_err.
Qed.

Lemma handle_load_store params cache :
  (handle_load rt params cache).2 = cache \/
  exists lines, (handle_load rt params cache).2 = (add_lines lines cache).2.
Proof.
  unfold handle_load.
  destruct (py_get params (py "file_path") JNull) as [path|]; [|by left].
  destruct (truthy rt path); [|by left]. cbn [negb].
  destruct (rt_readlines rt path) as [lines|]; [|by left].
  right. by exists (map rstrip_newlines lines).
Qed.

Lemma handle_sample_store i params cache :
  (handle_sample rt i params cache).2 = cache \/
  exists n, (handle_sample rt i params cache).2
            = (sample (rt_picks rt i) n cache).2.
Proof.
  unfold handle_sample.
  destruct (py_get params (py "n") JNull) as [n|]; [|by left].
  destruct (coerce_n rt n) as [z|] eqn:E.
  - destruct n; try by left.
    all: right; exists z; by destruct (sample (rt_picks rt i) z cache).
  - destruct n; by left.
Qed.

(** The store after a request is the store before it, or what
    [add_lines] or [sample] makes of it. *)
Lemma dispatch_store i data cache :
  (dispatch rt i data cache).2 = cache \/
  (exists lines, (dispatch rt i data cache).2 = (add_lines lines cache).2) \/
  (exists n, (dispatch rt i data cache).2
             = (sample (rt_picks rt i) n cache).2).
Proof.
  unfold dispatch.
  destruct (decode data) as [message|]; [|by left].
  destruct (py_get message (py "type") JNull) as [type|]; [|by left].
  destruct (eq_str type (py "request")); [|by left]. cbn [negb].
  destruct (py_get message (py "method") JNull) as [method|]; [|by left].
  destruct (py_get message (py "params") (JDict [])) as [params|];
    [|by left].
  destruct (eq_str method (py "load")).
  { destruct (handle_load_store params cache) as [H|H]; [by left|].
    right. by left. }
  destruct (eq_str method (py "sample")); [|by left].
  destruct (handle_sample_store i params cache) as [H|H]; [by left|].
  right. by right.
Qed.

Lemma handle_request_store i data cache :
  (handle_request rt i data cache).2 = (dispatch rt i data cache).2.
Proof.
  unfold handle_request, try_request.
  destruct (dispatch rt i data cache) as [r cache'].
  repeat case_match; by simplify_eq.
Qed.

Lemma request_keeps_invariant i data cache :
  store_inv cache ->
  store_inv (handle_request rt i data cache).2 /\
  total_lines_loaded cache
  <= total_lines_loaded (handle_request rt i data cache).2.
Proof.
  intros Hinv. rewrite handle_request_store.
  unfold store_inv in *.
  destruct (dispatch_store i data cache) as [-> | [[lines ->] | [n ->]]].
  - lia.
  - cbn. rewrite len_app. pose proof (len_nonneg lines). lia.
  - rewrite sample_total.
    pose proof (sublist_length _ _ (sample_sublist (rt_picks rt i) n cache)).
    unfold len in *. lia.
Qed.
End HandlerFacts.

(** X10: a load request for a file that can be read adds every line of
    the file, without its line terminators, to the end of the available
    lines, in order, empty and repeated lines included; the result is the
    number of lines read, and both the size of the store and the counter of
    lines loaded grow by it. *)
Theorem X10_handle_load_adds_the_file
    (rt : PyRuntime) (ps : list (pystr * json)) (cache : ThreadSafeCache)
    (raw : list pystr)
    (Hpath : truthy rt (field ps "file_path") = true)
    (Hread : rt_readlines rt (field ps "file_path") = Ok raw) :
  let r := handle_load rt (JDict ps) cache in
  r.1 = Ok (JDict [(py "lines_read", JInt (len raw))]) /\
  available_lines r.2 = available_lines cache ++ map rstrip_newlines raw /\
  size r.2 = size cache + len raw /\
  total_lines_loaded r.2 = total_lines_loaded cache + len raw.
Proof.
  cbv zeta. unfold handle_load. cbn [py_get]. unfold field in Hpath, Hread.
  rewrite Hpath, Hread. cbn [negb add_lines fst snd].
  unfold size, len. cbn. rewrite length_app, !length_map.
  repeat split; lia.
Qed.

Lemma X10_witness :
  (handle_load example_runtime (JDict [(py "file_path", JStr (py "a.txt"))])
     (mkCache [py "zero"] 1)).2
  = mkCache [py "zero"; py "one"; py "two"; py "one"] 4.
Proof.
  pose proof (X10_handle_load_adds_the_file example_runtime
                [(py "file_path", JStr (py "a.txt"))] (mkCache [py "zero"] 1)
                [py "one" ++ [10]; py "two" ++ [13; 10]; py "one"]
                eq_refl eq_refl) as (_ & Havail & _ & Htotal).
  destruct (handle_load example_runtime _ _).2 as [avail total].
  cbn in Havail, Htotal. by subst.
Defined.

(** X11: a request that ends in an exception, whatever the exception,
    leaves the store as it was: lines are added or removed only by a
    request that returns. *)
Theorem X11_failed_request_keeps_store
    (rt : PyRuntime) (i : nat) (data : list byte) (cache cache' : ThreadSafeCache)
    (e : exn)
    (Hfail : dispatch rt i data cache = (Err e, cache')) :
  cache' = cache /\ (handle_request rt i data cache).2 = cache.
Proof.
  pose proof (dispatch_err rt i data cache e cache' Hfail) as ->.
  split; [done|]. by rewrite handle_request_store, Hfail.
Qed.

Lemma X11_witness :
  (handle_request example_runtime 0
     (wire (request_message (py "sample") (JDict [(py "n", JStr (py "two"))])))
     (mkCache [py "a"] 1)).2
  = mkCache [py "a"] 1.
Proof.
  refine (proj2 (X11_failed_request_keeps_store example_runtime 0 _
                   (mkCache [py "a"] 1) (mkCache [py "a"] 1)
                   (mkExn ValueError (py "n must be an integer")) _)).
  by vm_compute.
Defined.

(** X12: over a transport that works, every request is answered with
    exactly one response: the Result response of what the request returned,
    with a null error, or else the Error response of the exception, with a
    null result. *)
Theorem X12_one_response_result_or_error
    (rt : PyRuntime) (i : nat) (data : list byte) (cache : ThreadSafeCache)
    (Hsend : reliable_transport rt) :
  (exists res cache',
     dispatch rt i data cache = (Ok res, cache') /\
     handle_request rt i data cache
     = (Ok (wire (response_message res None)), cache')) \/
  (exists e,
     dispatch rt i data cache = (Err e, cache) /\
     handle_request rt i data cache
     = (Ok (wire (response_message JNull (Some (exn_str e)))), cache)).
Proof.
  destruct (dispatch rt i data cache) as [[res|e] cache'] eqn:E.
  - left. exists res, cache'. split; [done|]. by apply handle_request_ok.
  - right. exists e. pose proof (dispatch_err rt _ _ _ _ _ E) as ->.
    split; [done|]. by apply handle_request_err.
Qed.

Lemma X12_witness :
  exists message,
    (handle_request example_runtime 0 (ascii_bytes (py "[1, 2]"))
       (mkCache [] 0)).1 = Ok (wire message).
Proof.
  destruct (X12_one_response_result_or_error example_runtime 0
              (ascii_bytes (py "[1, 2]")) (mkCache [] 0))
    as [(res & cache' & _ & ->) | (e & _ & ->)].
  - by intros i attempt.
  - by eexists.
  - by eexists.
Defined.

(** X13: a session, whatever arrives and whatever the transport does,
    leaves a store in which the available lines are no more than the lines
    loaded, if it found one so, and never lowers the counter of lines
    loaded. *)
Theorem X13_session_keeps_store_invariant
    (rt : PyRuntime) (i : nat) (incoming : list (result (list byte)))
    (cache : ThreadSafeCache) (Hinv : store_inv cache) :
  store_inv (handle_client rt i incoming cache).2 /\
  total_lines_loaded cache
  <= total_lines_loaded (handle_client rt i incoming cache).2.
Proof.
  revert i cache Hinv.
  induction incoming as [|[data|e] rest IH]; intros i cache Hinv;
    cbn [handle_client]; [by split | | by split].
  destruct (bool_decide (data = [])); [by split|].
  pose proof (request_keeps_invariant rt i data cache Hinv) as [Hinv' Hle].
  destruct (handle_request rt i data cache) as [[response|e] cache'];
    cbn [snd] in *; [|by split].
  destruct (IH (S i) cache' Hinv') as [Hfinal Hle'].
  destruct (handle_client rt (S i) rest cache'). cbn [snd] in *.
  split; [done | lia].
Qed.

Lemma X13_witness :
  store_inv
    (handle_client example_runtime 0
       [Ok (wire (request_message (py "load")
                    (JDict [(py "file_path", JStr (py "a.txt"))])));
        Ok (wire (request_message (py "sample") (JDict [(py "n", JInt 1)])))]
       cache_init).2.
Proof.
  apply X13_session_keeps_store_invariant. by vm_compute.
Defined.

(** X14: when the response to a request cannot be sent and neither can
    the Error response that reports it, the session ends at once: nothing
    is sent, what was received after the request is not handled, and the
    store keeps what the request did to it. *)
Theorem X14_unsendable_response_ends_session
    (rt : PyRuntime) (i : nat) (data : list byte)
    (rest : list (result (list byte))) (cache : ThreadSafeCache)
    (e0 e1 : exn)
    (Hdata : data <> [])
    (Hfirst : rt_send_error rt i 0 = Some e0)
    (Hsecond : rt_send_error rt i 1 = Some e1) :
  handle_client rt i (Ok data :: rest) cache
  = ([], (dispatch rt i data cache).2).
Proof.
  cbn [handle_client]. rewrite bool_decide_eq_false_2 by done.
  unfold handle_request, try_request, sendall.
  destruct (dispatch rt i data cache) as [[res|e] cache'] eqn:E; cbn [snd].
  - pose proof (dispatch_float_free rt _ _ _ _ _ E) as Hf.
    rewrite encode_response_result by done.
    by rewrite Hfirst, encode_response_error, Hsecond.
  - by rewrite encode_response_error, Hsecond.
Qed.

(** X15: when the Result response of a request that returned cannot be
    sent but the next [sendall] works, the client is sent the Error
    response of the transport exception, while the store keeps what the
    request did: lines a sample took are not given back. *)
Theorem X15_failed_send_reported_as_error
    (rt : PyRuntime) (i : nat) (data : list byte)
    (cache cache' : ThreadSafeCache) (res : json) (e0 : exn)
    (Hreq : dispatch rt i data cache = (Ok res, cache'))
    (Hfirst : rt_send_error rt i 0 = Some e0)
    (Hsecond : rt_send_error rt i 1 = None) :
  handle_request rt i data cache = (Ok (error_response e0), cache').
Proof.
  unfold handle_request, try_request, sendall. rewrite Hreq.
  rewrite encode_response_result by by eapply dispatch_float_free.
  by rewrite Hfirst, encode_response_error, Hsecond.
Qed.

(** X16: over a transport that works, a read that returns no data, or
    that raises, ends the session: what the session sent and the store it
    leaves are those of the reads before it, and nothing after it is
    handled. *)
Theorem X16_end_of_stream_ends_session
    (rt : PyRuntime) (i : nat) (pre post : list (result (list byte)))
    (stop : result (list byte)) (cache : ThreadSafeCache)
    (Hsend : reliable_transport rt)
    (Hpre : Forall received pre)
    (Hstop : stop = Ok [] \/ exists e, stop = Err e) :
  handle_client rt i (pre ++ stop :: post) cache
  = handle_client rt i pre cache.
Proof.
  rewrite handle_client_app by done.
  assert (Hend : forall j c, handle_client rt j (stop :: post) c = ([], c)).
  { intros j c. by destruct Hstop as [-> | [e ->]]. }
  rewrite Hend. cbn [fst snd]. rewrite app_nil_r.
  by destruct (handle_client rt i pre cache).
Qed.

Lemma X14_witness :
  let request := wire (request_message (py "sample")
                         (JDict [(py "n", JInt 1)])) in
  let broken := Some (mkExn OSError (py "[Errno 32] Broken pipe")) in
  handle_client (lossy_runtime broken broken) 0 [Ok request; Ok request]
    (mkCache [py "a"; py "b"] 2)
  = ([], mkCache [py "b"] 2).
Proof.
  cbv zeta.
  rewrite (X14_unsendable_response_ends_session
             (lossy_runtime (Some (mkExn OSError (py "[Errno 32] Broken pipe")))
                            (Some (mkExn OSError (py "[Errno 32] Broken pipe"))))
             0 _ _ _ (mkExn OSError (py "[Errno 32] Broken pipe"))
             (mkExn OSError (py "[Errno 32] Broken pipe"))).
  - by vm_compute.
  - by vm_compute.
  - done.
  - done.
Defined.

Lemma X15_witness :
  let request := wire (request_message (py "sample")
                         (JDict [(py "n", JInt 1)])) in
  let broken := mkExn OSError (py "[Errno 32] Broken pipe") in
  handle_request (lossy_runtime (Some broken) None) 0 request
    (mkCache [py "a"; py "b"] 2)
  = (Ok (error_response broken), mkCache [py "b"] 2).
Proof.
  cbv zeta.
  apply (X15_failed_send_reported_as_error
           (lossy_runtime (Some (mkExn OSError (py "[Errno 32] Broken pipe")))
                          None) 0 _ _ _
           (JDict [(py "lines", JList [JStr (py "a")])])).
  - by vm_compute.
  - done.
  - done.
Defined.

Lemma X16_witness :
  let request := wire (request_message (py "sample")
                         (JDict [(py "n", JInt 1)])) in
  handle_client example_runtime 0 ([Ok request] ++ Ok [] :: [Ok request])
    (mkCache [py "a"; py "b"] 2)
  = handle_client example_runtime 0 [Ok request] (mkCache [py "a"; py "b"] 2).
Proof.
  cbv zeta. apply X16_end_of_stream_ends_session.
  - by intros i attempt.
  - apply List.Forall_cons; [|apply List.Forall_nil].
    eexists. split; [reflexivity | by vm_compute].
  - by left.
Defined.

(* ================================================================== *)
(** * Properties of the client, alone and against the server *)

Section ClientFacts.
Variable client : PyRuntime.

Lemma text_app_ascii (s1 s2 : pystr) :
  Forall is_ascii s1 -> text s2 = true -> text (s1 ++ s2) = true.
Proof.
  intros H1 H2. induction H1 as [|c s1 Hc _ IH]; [done|].
  cbn [app text]. rewrite IH. unfold is_ascii in Hc.
  assert (Hcp : is_code_point c = true) by (unfold is_code_point; lia).
  assert (Hhi : is_high_surrogate c = false)
    by (unfold is_high_surrogate; lia).
  by rewrite Hcp, Hhi.
Qed.

Lemma request_is_request method params :
  text method = true -> representable params = true ->
  is_request (wire (request_message method params)) (JStr method) params.
Proof.
  intros Hm Hp.
  exists [(py "type", JStr (py "request")); (py "method", JStr method);
          (py "params", params)].
  split; [|repeat split; by vm_compute].
  apply (decode_wire_representable (request_message method params)).
  by apply request_representable.
Qed.

(** What the client makes of a response message of the server. *)
Lemma check_response_wire res error :
  representable res = true ->
  match error with Some msg => text msg | None => true end = true ->
  check_response client (wire (response_message res error))
  = match error with
    | Some ((_ :: _) as msg) => ServerError (JStr msg)
    | Some [] | None => Returned res
    end.
Proof.
  intros Hres Herr. unfold check_response.
  rewrite decode_wire_representable by by apply response_representable.
  destruct error as [[|c msg]|]; by vm_compute.
Qed.

Lemma served_err server i cache request e cache' :
  reliable_transport server ->
  dispatch server i request cache = (Err e, cache') ->
  served server i cache request = Ok (error_response e).
Proof.
  intros Hsend H. unfold served.
  by rewrite (handle_request_err server Hsend _ _ _ _ _ H).
Qed.

Lemma served_ok server i cache request res cache' :
  reliable_transport server ->
  dispatch server i request cache = (Ok res, cache') ->
  served server i cache request = Ok (result_response res).
Proof.
  intros Hsend H. unfold served.
  by rewrite (handle_request_ok server Hsend _ _ _ _ _ H).
Qed.

Lemma representable_lines (lines : list pystr) :
  Forall (fun line => text line = true) lines ->
  representable (JDict [(py "lines", JList (map JStr lines))]) = true.
Proof.
  intros H. cbn [representable forallb fst snd].
  assert (E : forallb representable (map JStr lines) = true).
  { induction H as [|line lines Hl _ IH]; [done|]. cbn. by rewrite Hl, IH. }
  rewrite E. by vm_compute.
Qed.

Lemma dispatch_sample server i n cache :
  dispatch server i
    (wire (request_message (py "sample") (JDict [(py "n", JInt n)]))) cache
  = handle_sample server i (JDict [(py "n", JInt n)]) cache.
Proof.
  rewrite (dispatch_request server i _ (JStr (py "sample"))
             (JDict [(py "n", JInt n)])).
  - cbn [eq_str]. rewrite bool_decide_eq_false_2 by (by vm_compute).
    by rewrite bool_decide_eq_true_2.
  - by apply request_is_request.
Qed.

Lemma dispatch_load server i path cache :
  text path = true ->
  dispatch server i
    (wire (request_message (py "load") (JDict [(py "file_path", JStr path)])))
    cache
  = handle_load server (JDict [(py "file_path", JStr path)]) cache.
Proof.
  intros Hp.
  rewrite (dispatch_request server i _ (JStr (py "load"))
             (JDict [(py "file_path", JStr path)])).
  - cbn [eq_str]. by rewrite bool_decide_eq_true_2.
  - apply request_is_request; [done|].
    cbn [representable forallb fst snd]. rewrite Hp. by vm_compute.
Qed.
End ClientFacts.

Section ServedFacts.
Variable server : PyRuntime.
Hypothesis Hsend : reliable_transport server.
Implicit Types (cache : ThreadSafeCache) (i : nat).

(** The server on a sample request for an integer [n >= 0]. *)
Lemma served_sample i cache n :
  0 <= n ->
  let request := wire (request_message (py "sample")
                         (JDict [(py "n", JInt n)])) in
  let drawn := sample (rt_picks server i) n cache in
  handle_request server i request cache
  = (Ok (result_response (JDict [(py "lines", JList (map JStr drawn.1))])),
     drawn.2).
Proof.
  intros Hn. cbv zeta. apply handle_request_ok; [done|].
  rewrite dispatch_sample. unfold handle_sample. cbn [py_get].
  change (dict_get [(py "n", JInt n)] (py "n")) with (Some (JInt n)).
  unfold coerce_n. cbn [py_int]. destruct (Z.ltb_spec n 0); [lia|].
  by destruct (sample (rt_picks server i) n cache).
Qed.

(** The server on a sample request for a negative integer. *)
Lemma served_sample_negative i cache n :
  n < 0 ->
  handle_request server i
    (wire (request_message (py "sample") (JDict [(py "n", JInt n)]))) cache
  = (Ok (error_response (mkExn ValueError (py "n must be an integer"))),
     cache).
Proof.
  intros Hn. apply handle_request_err; [done|].
  rewrite dispatch_sample. unfold handle_sample. cbn [py_get].
  change (dict_get [(py "n", JInt n)] (py "n")) with (Some (JInt n)).
  unfold coerce_n. cbn [py_int]. by destruct (Z.ltb_spec n 0); [|lia].
Qed.

(** The server on a load request for a non-empty path. *)
Lemma served_load i cache path :
  text path = true -> path <> [] ->
  handle_request server i
    (wire (request_message (py "load")
             (JDict [(py "file_path", JStr path)]))) cache
  = match rt_readlines server (JStr path) with
    | Ok raw =>
        (Ok (result_response (JDict [(py "lines_read", JInt (len raw))])),
         (add_lines (map rstrip_newlines raw) cache).2)
    | Err e =>
        (Ok (error_response
               (mkExn ValueError (py "Error reading file: " ++ exn_str e))),
         cache)
    end.
Proof.
  intros Hp Hne.
  assert (Hd : dispatch server i
                 (wire (request_message (py "load")
                          (JDict [(py "file_path", JStr path)]))) cache
               = match rt_readlines server (JStr path) with
                 | Ok raw =>
                     (Ok (JDict [(py "lines_read", JInt (len raw))]),
                      (add_lines (map rstrip_newlines raw) cache).2)
                 | Err e =>
                     (Err (mkExn ValueError
                             (py "Error reading file: " ++ exn_str e)), cache)
                 end).
  { rewrite dispatch_load by done. unfold handle_load. cbn [py_get].
    change (dict_get [(py "file_path", JStr path)] (py "file_path"))
      with (Some (JStr path)).
    cbn [truthy]. rewrite bool_decide_eq_false_2 by done. cbn [negb].
    destruct (rt_readlines server (JStr path)) as [raw|e]; [|done].
    cbn [add_lines snd]. unfold len. by rewrite length_map. }
  destruct (rt_readlines server (JStr path)) as [raw|e].
  - by apply handle_request_ok.
  - by apply handle_request_err.
Qed.
(** A read that returns all that was sent. *)
Lemma recv_whole arrived sent :
  whole_read arrived sent -> recv MAX_MESSAGE_SIZE arrived sent = sent.
Proof.
  intros [Hmax Harrived]. unfold recv. apply take_ge.
  unfold len in *. lia.
Qed.

(** The server on a sample request for an integer [n >= 0], its response
    read whole by the client. *)
Lemma served_stream_sample i cache n arrived :
  0 <= n ->
  whole_read arrived (sample_response server i cache n) ->
  served_stream server i cache arrived
    (wire (request_message (py "sample") (JDict [(py "n", JInt n)])))
  = Ok (sample_response server i cache n).
Proof.
  intros Hn Hwhole. unfold served_stream, served.
  pose proof (served_sample i cache n Hn) as Hserved. cbv zeta in Hserved.
  rewrite Hserved. cbn [fst]. fold (sample_response server i cache n).
  by rewrite recv_whole.
Qed.
End ServedFacts.

(** A read that returns the first 40 bytes of the response only: the call
    of the client raises, and the lines drawn are gone from the store. *)
Example truncated_response_raises :
  let cache := mkCache [py "a"; py "b"; py "c"] 3 in
  let request := wire (request_message (py "sample")
                         (JDict [(py "n", JInt 2)])) in
  len (sample_response example_runtime 0 cache 2) = 68 /\
  (exists msg,
     client_sample example_runtime
       (served_stream example_runtime 0 cache 40) (JInt 2)
     = Raised (mkExn JSONDecodeError msg)) /\
  (handle_request example_runtime 0 request cache).2 = mkCache [py "c"] 3.
Proof. cbv zeta. split; [|split; [eexists|]]; by vm_compute. Qed.
(** X17: [_send_request] against a peer that answers the request with a
    response message: the request is encoded and sent, and a non-empty
    error of the response is raised as the exception of the call; with no
    error, or with an empty error string, the call returns the result of
    the response. *)
Theorem X17_client_raises_non_empty_error
    (client : PyRuntime) (exchange : list byte -> result (list byte))
    (method : pystr) (params res : json) (error : option pystr)
    (Hparams : float_free params = true)
    (Hres : representable res = true)
    (Herror : match error with Some msg => text msg | None => true end
              = true)
    (Hanswer : exchange (wire (request_message method params))
               = Ok (wire (response_message res error))) :
  send_request client exchange method params
  = match error with
    | Some ((_ :: _) as msg) => ServerError (JStr msg)
    | Some [] | None => Returned res
    end.
Proof.
  unfold send_request. rewrite encode_request_wire by done.
  rewrite Hanswer. by apply check_response_wire.
Qed.

Lemma X17_witness :
  send_request example_runtime
    (fun _ => Ok (wire (response_message JNull
                          (Some (py "Missing n parameter")))))
    (py "sample") (JDict [])
  = ServerError (JStr (py "Missing n parameter")).
Proof.
  apply (X17_client_raises_non_empty_error example_runtime _
           (py "sample") (JDict []) JNull
           (Some (py "Missing n parameter"))); by vm_compute.
Defined.

(** X18: [client.sample(n)] for an integer [n >= 0], against a server
    whose transport works and whose available lines are strings the
    protocol represents, when the response is no longer than
    [MAX_MESSAGE_SIZE] and has arrived in full at the one read of the
    client: the call returns the lines that [sample(n)] takes from the
    store, in the order of the draw, and the server is left with the store
    that [sample(n)] leaves. *)
Theorem X18_client_sample_returns_the_draw
    (client server : PyRuntime) (i : nat) (cache : ThreadSafeCache)
    (n arrived : Z)
    (Hsend : reliable_transport server)
    (Hlines : Forall (fun line => text line = true) (available_lines cache))
    (Hn : 0 <= n)
    (Hwhole : whole_read arrived (sample_response server i cache n)) :
  let request := wire (request_message (py "sample")
                         (JDict [(py "n", JInt n)])) in
  let drawn := sample (rt_picks server i) n cache in
  client_sample client (served_stream server i cache arrived) (JInt n)
  = Returned (JList (map JStr drawn.1)) /\
  (handle_request server i request cache).2 = drawn.2.
Proof.
  cbv zeta. split.
  - unfold client_sample, send_request.
    rewrite encode_request_wire by done.
    rewrite served_stream_sample by done.
    unfold sample_response, result_response.
    rewrite check_response_wire; [done| |done].
    apply representable_lines. rewrite Forall_forall in Hlines |- *.
    intros line Hin. apply Hlines. by eapply sample_returns_available.
  - pose proof (served_sample server Hsend i cache n Hn) as Hserved.
    cbv zeta in Hserved. by rewrite Hserved.
Qed.

Lemma X18_witness :
  client_sample example_runtime
    (served_stream example_runtime 0 (mkCache [py "a"; py "b"; py "c"] 3)
       4096)
    (JInt 2)
  = Returned (JList [JStr (py "a"); JStr (py "b")]).
Proof.
  refine (proj1 (X18_client_sample_returns_the_draw example_runtime
                   example_runtime 0 (mkCache [py "a"; py "b"; py "c"] 3) 2
                   4096 _ _ _ _)).
  - by intros i attempt.
  - by repeat apply List.Forall_cons.
  - lia.
  - split; by vm_compute.
Defined.

(** X19: [client.sample(n)] for a negative integer [n] raises the error
    [n must be an integer] that the server reports, and the store of the
    server is unchanged. *)
Theorem X19_client_sample_negative
    (client server : PyRuntime) (i : nat) (cache : ThreadSafeCache) (n : Z)
    (Hsend : reliable_transport server)
    (Hn : n < 0) :
  let request := wire (request_message (py "sample")
                         (JDict [(py "n", JInt n)])) in
  client_sample client (served server i cache) (JInt n)
  = ServerError (JStr (py "n must be an integer")) /\
  (handle_request server i request cache).2 = cache.
Proof.
  cbv zeta. pose proof (served_sample_negative server Hsend i cache n Hn)
    as Hserved.
  split; [|by rewrite Hserved].
  unfold client_sample, send_request, served.
  rewrite encode_request_wire by done. rewrite Hserved. cbn [fst].
  unfold error_response. cbn [exn_str]. by rewrite check_response_wire.
Qed.

Lemma X19_witness :
  client_sample example_runtime
    (served example_runtime 0 (mkCache [py "a"] 1)) (JInt (-3))
  = ServerError (JStr (py "n must be an integer")).
Proof.
  refine (proj1 (X19_client_sample_negative example_runtime example_runtime
                   0 (mkCache [py "a"] 1) (-3) _ _)).
  - by intros i attempt.
  - lia.
Defined.

(** X20: [client.load(path)] for a non-empty path the protocol
    represents, naming a file the server can read, returns the number of
    lines of the file, and the server has added them to its store. *)
Theorem X20_client_load_returns_line_count
    (client server : PyRuntime) (i : nat) (cache : ThreadSafeCache)
    (path : pystr) (raw : list pystr)
    (Hsend : reliable_transport server)
    (Hpath : text path = true)
    (Hnonempty : path <> [])
    (Hread : rt_readlines server (JStr path) = Ok raw) :
  let request := wire (request_message (py "load")
                         (JDict [(py "file_path", JStr path)])) in
  client_load client (served server i cache) (JStr path)
  = Returned (JInt (len raw)) /\
  (handle_request server i request cache).2
  = (add_lines (map rstrip_newlines raw) cache).2.
Proof.
  cbv zeta.
  pose proof (served_load server Hsend i cache path Hpath Hnonempty)
    as Hserved.
  rewrite Hread in Hserved. split; [|by rewrite Hserved].
  unfold client_load, send_request, served.
  rewrite encode_request_wire by done. rewrite Hserved. cbn [fst].
  unfold result_response. by rewrite check_response_wire.
Qed.

Lemma X20_witness :
  client_load example_runtime (served example_runtime 0 cache_init)
    (JStr (py "a.txt"))
  = Returned (JInt 3).
Proof.
  refine (proj1 (X20_client_load_returns_line_count example_runtime
                   example_runtime 0 cache_init (py "a.txt")
                   [py "one" ++ [10]; py "two" ++ [13; 10]; py "one"]
                   _ _ _ _)).
  - by intros i attempt.
  - by vm_compute.
  - by vm_compute.
  - by vm_compute.
Defined.

(** X21: [client.load(path)] for a file the server cannot read raises the
    error of the server, [Error reading file:] followed by the reason, and
    the store of the server is unchanged. *)
Theorem X21_client_load_unreadable
    (client server : PyRuntime) (i : nat) (cache : ThreadSafeCache)
    (path : pystr) (e : exn)
    (Hsend : reliable_transport server)
    (Hpath : text path = true)
    (Hnonempty : path <> [])
    (Hreason : text (exn_str e) = true)
    (Hread : rt_readlines server (JStr path) = Err e) :
  let request := wire (request_message (py "load")
                         (JDict [(py "file_path", JStr path)])) in
  client_load client (served server i cache) (JStr path)
  = ServerError (JStr (py "Error reading file: " ++ exn_str e)) /\
  (handle_request server i request cache).2 = cache.
Proof.
  cbv zeta.
  pose proof (served_load server Hsend i cache path Hpath Hnonempty)
    as Hserved.
  rewrite Hread in Hserved. split; [|by rewrite Hserved].
  unfold client_load, send_request, served.
  rewrite encode_request_wire by done. rewrite Hserved. cbn [fst].
  unfold error_response. cbn [exn_str].
  rewrite check_response_wire; [|done|].
  - by vm_compute.
  - apply text_app_ascii; [by apply py_ascii | done].
Qed.

Lemma X21_witness :
  client_load example_runtime
    (served example_runtime 0 (mkCache [py "a"] 1)) (JStr (py "b.txt"))
  = ServerError
      (JStr (py "Error reading file: [Errno 2] No such file or directory")).
Proof.
  refine (proj1 (X21_client_load_unreadable example_runtime example_runtime
                   0 (mkCache [py "a"] 1) (py "b.txt")
                   (mkExn OSError (py "[Errno 2] No such file or directory"))
                   _ _ _ _ _)).
  - by intros i attempt.
  - by vm_compute.
  - by vm_compute.
  - by vm_compute.
  - by vm_compute.
Defined.

(* ================================================================== *)
(** * Properties of the command line program *)

Section CliFacts.
Variable client : PyRuntime.

Lemma numbered_lines (lines : list pystr) :
  numbered client (map JStr lines)
  = imap (fun i line => str_of_int (Z.of_nat i + 1) ++ py ": " ++ line) lines.
Proof. unfold numbered. by rewrite imap_fmap. Qed.

Lemma send_request_served server i cache method params response cache' :
  float_free params = true ->
  handle_request server i (wire (request_message method params)) cache
  = (Ok response, cache') ->
  send_request client (served server i cache) method params
  = check_response client response.
Proof.
  intros Hp Hserved. unfold send_request, served.
  rewrite encode_request_wire by done. by rewrite Hserved.
Qed.
End CliFacts.

(** X22: with the server reached, the program asks for the option of the
    command before it sends anything: [load] without a file, or with an
    empty one, and [sample] without a number, or with the number 0, print
    the request for the option on the standard output and exit with status
    1, whatever the server would answer. *)
Theorem X22_cli_requires_the_option
    (client : PyRuntime) (exchange : list byte -> result (list byte))
    (args : cli_args)
    (Hmissing :
       match arg_command args with
       | CmdLoad => arg_file args = None \/ arg_file args = Some []
       | CmdSample => arg_num args = None \/ arg_num args = Some 0
       end) :
  cli_main client (Ok tt) exchange args
  = match arg_command args with
    | CmdLoad => mkExit [py "Error: --file required for load command"] [] 1
    | CmdSample => mkExit [py "Error: --num required for sample command"] [] 1
    end.
Proof.
  unfold cli_main. destruct (arg_command args).
  - by destruct Hmissing as [-> | ->].
  - by destruct Hmissing as [-> | ->].
Qed.

Lemma X22_witness :
  cli_main example_runtime (Ok tt)
    (served example_runtime 0 (mkCache [py "a"] 1))
    (mkArgs CmdSample None (Some 0))
  = mkExit [py "Error: --num required for sample command"] [] 1.
Proof.
  apply (X22_cli_requires_the_option example_runtime _
           (mkArgs CmdSample None (Some 0))).
  by right.
Defined.

(** X23: the program run as [sample --num n] with [n > 0], against a
    server whose transport works and whose available lines are strings the
    protocol represents, when the response is no longer than
    [MAX_MESSAGE_SIZE] and has arrived in full at the one read of the
    client: it prints the number of lines that [sample(n)] took from the
    store and then these lines, one per line of output, numbered from 1; it
    prints nothing on the standard error and exits with status 0. *)
Theorem X23_cli_sample_prints_the_draw
    (client server : PyRuntime) (i : nat) (cache : ThreadSafeCache)
    (file : option pystr) (n arrived : Z)
    (Hsend : reliable_transport server)
    (Hlines : Forall (fun line => text line = true) (available_lines cache))
    (Hn : 0 < n)
    (Hwhole : whole_read arrived (sample_response server i cache n)) :
  let drawn := (sample (rt_picks server i) n cache).1 in
  cli_main client (Ok tt) (served_stream server i cache arrived)
    (mkArgs CmdSample file (Some n))
  = mkExit
      ((py "Sampled " ++ str_of_int (len drawn) ++ py " lines:")
       :: imap (fun k line =>
                  str_of_int (Z.of_nat k + 1) ++ py ": " ++ line) drawn)
      [] 0.
Proof.
  cbv zeta.
  unfold cli_main. cbn [arg_command arg_num].
  destruct n as [|p|p]; [lia | | lia].
  unfold client_sample, send_request.
  rewrite encode_request_wire by done.
  rewrite served_stream_sample by (done || lia).
  unfold sample_response, result_response.
  rewrite check_response_wire; [| |done].
  - cbn [get_from].
    change (py_get (JDict [(py "lines", ?v)]) (py "lines") ?d) with (Ok v).
    cbn [after_call py_len py_iter]. rewrite numbered_lines.
    unfold len. by rewrite length_map.
  - apply representable_lines. rewrite Forall_forall in Hlines |- *.
    intros line Hin. apply Hlines. by eapply sample_returns_available.
Qed.

Lemma X23_witness :
  cli_main example_runtime (Ok tt)
    (served_stream example_runtime 0 (mkCache [py "a"; py "b"; py "c"] 3)
       4096)
    (mkArgs CmdSample None (Some 2))
  = mkExit [py "Sampled 2 lines:"; py "1: a"; py "2: b"] [] 0.
Proof.
  rewrite (X23_cli_sample_prints_the_draw example_runtime example_runtime 0
             (mkCache [py "a"; py "b"; py "c"] 3) None 2 4096).
  - by vm_compute.
  - by intros i attempt.
  - by repeat apply List.Forall_cons.
  - lia.
  - split; by vm_compute.
Defined.

(** X24: the program run as [sample --num n] with [n < 0], against a
    server whose transport works, prints nothing on the standard output,
    prints the error of the server, [n must be an integer], on the standard
    error, and exits with status 1. *)
Theorem X24_cli_sample_negative
    (client server : PyRuntime) (i : nat) (cache : ThreadSafeCache)
    (file : option pystr) (n : Z)
    (Hsend : reliable_transport server)
    (Hn : n < 0) :
  cli_main client (Ok tt) (served server i cache) (mkArgs CmdSample file (Some n))
  = mkExit [] [py "Error: n must be an integer"] 1.
Proof.
  pose proof (served_sample_negative server Hsend i cache n Hn) as Hserved.
  unfold cli_main. cbn [arg_command arg_num].
  destruct n as [|p|p]; [lia | lia |].
  unfold client_sample.
  rewrite (send_request_served client server i cache (py "sample")
             (JDict [(py "n", JInt (Z.neg p))]) _ _ eq_refl Hserved).
  unfold error_response. cbn [exn_str].
  by rewrite check_response_wire.
Qed.

Lemma X24_witness :
  cli_main example_runtime (Ok tt)
    (served example_runtime 0 (mkCache [py "a"] 1))
    (mkArgs CmdSample None (Some (-1)))
  = mkExit [] [py "Error: n must be an integer"] 1.
Proof.
  apply (X24_cli_sample_negative example_runtime example_runtime 0
           (mkCache [py "a"] 1) None (-1)).
  - by intros i attempt.
  - lia.
Defined.

(** X25: the program run as [load --file path], for a non-empty path the
    protocol represents and a file the server can read, against a server
    whose transport works, prints the number of lines of the file as the
    number of lines loaded, prints nothing on the standard error and exits
    with status 0. *)
Theorem X25_cli_load_prints_the_count
    (client server : PyRuntime) (i : nat) (cache : ThreadSafeCache)
    (path : pystr) (num : option Z) (raw : list pystr)
    (Hsend : reliable_transport server)
    (Hpath : text path = true)
    (Hnonempty : path <> [])
    (Hread : rt_readlines server (JStr path) = Ok raw) :
  cli_main client (Ok tt) (served server i cache)
    (mkArgs CmdLoad (Some path) num)
  = mkExit [py "Loaded " ++ str_of_int (len raw) ++ py " lines"] [] 0.
Proof.
  pose proof (served_load server Hsend i cache path Hpath Hnonempty)
    as Hserved.
  rewrite Hread in Hserved.
  unfold cli_main. cbn [arg_command arg_file].
  destruct path as [|c path]; [done|].
  unfold client_load.
  rewrite (send_request_served client server i cache (py "load")
             (JDict [(py "file_path", JStr (c :: path))]) _ _ eq_refl
             Hserved).
  unfold result_response. by rewrite check_response_wire.
Qed.

Lemma X25_witness :
  cli_main example_runtime (Ok tt) (served example_runtime 0 cache_init)
    (mkArgs CmdLoad (Some (py "a.txt")) None)
  = mkExit [py "Loaded 3 lines"] [] 0.
Proof.
  rewrite (X25_cli_load_prints_the_count example_runtime example_runtime 0
             cache_init (py "a.txt") None
             [py "one" ++ [10]; py "two" ++ [13; 10]; py "one"]).
  - by vm_compute.
  - by intros i attempt.
  - by vm_compute.
  - by vm_compute.
  - by vm_compute.
Defined.
